(** * torchDF/model_onnx_export.py: ONNX export script of the streaming denoiser

    The script is glue code: every tensor, graph and audio operation is a call
    into torch, onnx, onnxruntime or torchaudio.  The embedding keeps the
    script's own control flow, constants, argument lists, list and dict
    handling and string manipulation, and treats each library call as an
    external call answered by an arbitrary handler over an abstract world.
    What the script asks of the libraries is recorded, in order, in a trace. *)

From Stdlib Require Import QArith Qabs.
From stdpp Require Import gmap strings list fin_maps.

Local Open Scope string_scope.
Local Open Scope list_scope.
Local Open Scope nat_scope.

(** ** Module constants (lines 22-26) *)

Definition FRAME_SIZE : nat := 480.
Definition INPUT_NAMES : list string := ["input_frame"].
Definition OUTPUT_NAMES : list string := ["enhanced_audio_frame"; "out_states"].

(** ** Python built-ins used by the script *)

(** [dict(pairs)] and dict comprehensions: later keys overwrite earlier ones. *)
Definition py_dict {V} (pairs : list (string * V)) : gmap string V :=
  foldl (fun acc kv => <[kv.1 := kv.2]> acc) ∅ pairs.

(** [zip(a, b, c)]: stops at the shortest argument. *)
Fixpoint zip3 {A B C} (a : list A) (b : list B) (c : list C) : list (A * B * C) :=
  match a, b, c with
  | x :: a', y :: b', z :: c' => (x, y, z) :: zip3 a' b' c'
  | _, _, _ => []
  end.

(** [l[-n:]] on a sequence. *)
Definition py_slice_last {A} (n : nat) (l : list A) : list A :=
  drop (length l - n) l.

(** [s.startswith(p)] *)
Fixpoint startswith (p s : string) : bool :=
  match p, s with
  | EmptyString, _ => true
  | String a p', String b s' => if Ascii.eqb a b then startswith p' s' else false
  | String _ _, EmptyString => false
  end.

(** [sub in s] *)
Fixpoint py_in (sub s : string) : bool :=
  startswith sub s ||
  match s with
  | EmptyString => false
  | String _ s' => py_in sub s'
  end.

(** [s.replace(old, new)] for a non-empty [old]: every non-overlapping
    occurrence, scanning from the left.  [skip] counts the characters of the
    occurrence just replaced that are still to be passed over. *)
Fixpoint str_replace_skip (old new : string) (skip : nat) (s : string) : string :=
  match s with
  | EmptyString => EmptyString
  | String c s' =>
      match skip with
      | S k => str_replace_skip old new k s'
      | O =>
          if startswith old s
          then new ++ str_replace_skip old new (String.length old - 1) s'
          else String c (str_replace_skip old new 0 s')
      end
  end.

Definition str_replace (old new s : string) : string :=
  str_replace_skip old new 0 s.

(** ** Values and operations owned by the libraries

    Tensors, arrays, models and sessions are opaque to the script; it only
    passes them around and observes them through the operations below.
    Floating-point arithmetic stays inside [allclose], which answers or, on
    shapes that do not broadcast, raises.  Tensors are values:
    what a library keeps between calls lives in the world, and a variable of
    the script changes only where the script assigns it. *)

Inductive GraphOptimizationLevel :=
  ORT_DISABLE_ALL | ORT_ENABLE_BASIC | ORT_ENABLE_EXTENDED | ORT_ENABLE_ALL.
Inductive ExecutionMode := ORT_SEQUENTIAL | ORT_PARALLEL.
Inductive QuantType := QInt8 | QUInt8.

Record SessionOptions := mkSessionOptions {
  graph_optimization_level : GraphOptimizationLevel;
  optimized_model_filepath : string;
  inter_op_num_threads : nat;
  intra_op_num_threads : nat;
  execution_mode : ExecutionMode
}.

Class Values := {
  scalar : Type;
  Tensor : Type;
  NdArray : Type;
  Model : Type;
  Script : Type;
  Pipeline : Type;
  OnnxModel : Type;
  Session : Type;
  Measurement : Type;
  LibErr : Type;
  World : Type;
  flat : Tensor -> list scalar;              (* [x.flatten()], as a sequence *)
  to_numpy : Tensor -> NdArray;              (* [y.detach().cpu().numpy()] *)
  from_numpy : NdArray -> Tensor;            (* [torch.from_numpy(y)] *)
  nd_shape : NdArray -> list nat;            (* [y.shape] *)
  allclose : Q -> Tensor -> Tensor -> bool + LibErr;
                                             (* [torch.allclose(x, y, atol=a)] *)
  deepcopy : Tensor -> Tensor;               (* [copy.deepcopy(x)] *)
  torch_streaming_model : Pipeline -> Model; (* attribute of a fresh pipeline *)
  parameters : Model -> list (bool * list N); (* requires_grad and size *)
  tensor_mean : nat -> Tensor -> Tensor;     (* [x.mean(dim=d)] *)
  unsqueeze : nat -> Tensor -> Tensor;       (* [x.unsqueeze(d)] *)
  SessionOptions_new : SessionOptions        (* [ort.SessionOptions()] *)
}.

(** ** Command line (lines 269-289) *)

Record Args := mkArgs {
  output_path : string;              (* --output-path, default denoiser_model.onnx *)
  simplify : bool;                   (* --simplify *)
  test : bool;                       (* --test *)
  performance : bool;                (* --performance *)
  inference_path : option string;    (* --inference-path *)
  ort : bool;                        (* --ort *)
  always_apply_all_stages : bool     (* --always-apply-all-stages *)
}.

(** Truth value of [args.inference_path]: [None] and the empty string are false. *)
Definition py_truthy (s : option string) : bool :=
  match s with
  | Some (String _ _) => true
  | _ => false
  end.

(** The string held by [args.inference_path] where it is true. *)
Definition path_of (s : option string) : string := default "" s.

Section Script.
Context `{V : Values}.

(** *** generate_onnx_features (lines 87-88) *)

Definition generate_onnx_features (input_features : list Tensor)
  : gmap string NdArray :=
  py_dict ((fun xy => (xy.1, to_numpy xy.2)) <$> zip INPUT_NAMES input_features).

(** *** Exceptions, messages and library calls *)

Inductive assert_msg :=
| AssertText (msg : string)
| AssertOut (name : string) (i : nat) (x_tail y_tail : list scalar).

Inductive exn :=
| NotImplementedError (msg : string)
| RuntimeError (msg : string)
| IndexError
| AssertionError (msg : assert_msg)
| LibraryError (e : LibErr).

Inductive result (A : Type) := Ok (a : A) | Raise (e : exn).
Global Arguments Ok {A} a.
Global Arguments Raise {A} e.

Inductive message :=
| MsgNumParams (millions : N)
| MsgExported (path : string)
| MsgChecked (path : string)
| MsgPreprocessed (path : string)
| MsgQuantized (path : string)
| MsgSimplified (path : string)
| MsgOrtConverted
| MsgCheckingModel
| MsgSessionOk (shapes : list (list nat))
| MsgTestsPassed
| MsgPerfCheck
| MsgMedian (median : Measurement) (frame_ms : Q)
| MsgEnhanced (path : string).

Inductive call : Type -> Type :=
| TorchDFMinimalPipeline (device : string) : call Pipeline
| TorchRand (n : nat) : call Tensor
| TorchRandn (n : nat) : call Tensor
| ModelForward (m : Model) (args : list Tensor) : call (list Tensor)
| JitScript (m : Model) : call Script
| OnnxExport (m : Script) (args : list Tensor) (f : string) (verbose : bool)
    (input_names output_names : list string) (opset_version : nat)
    (export_params do_constant_folding : bool) : call unit
| OnnxLoad (path : string) : call OnnxModel
| CheckModel (m : OnnxModel) (full_check : bool) : call unit
| QuantPreProcess (input output : string) (skip_symbolic_shape : bool) : call unit
| QuantizeDynamic (input output : string) (weight_type : QuantType) : call unit
| OnnxsimSimplify (m : OnnxModel) (input_data : gmap string NdArray)
    (test_input_shapes : gmap string (list nat)) : call (OnnxModel * bool)
| OnnxSaveModel (m : OnnxModel) (path : string) : call unit
| SubprocessRun (argv : list string) : call Z
| InferenceSession (path : string) (o : SessionOptions) (providers : list string)
    : call Session
| SessionRun (s : Session) (output_names : list string)
    (input_feed : gmap string NdArray) : call (list NdArray)
| BenchmarkTimer (s : Session) (output_names : list string)
    (input_feed : gmap string NdArray) (num_threads min_run_time : nat)
    : call Measurement
| AudioLoad (path : string) (channels_first : bool) : call (Tensor * Z)
| AudioSave (path : string) (src : Tensor) (sample_rate : Z)
    (encoding : string) (bits_per_sample : nat) : call unit.

(** What a run leaves behind: each library call with its answer, each
    printed line, and each entry into the streaming pipeline. *)
Inductive event :=
| Ev {R} (c : call R) (r : R + LibErr)
| Printed (m : message)
| PipelineEnter (p : Pipeline) (audio : Tensor) (sr : Z).

Record outcome (A : Type) := mkOutcome {
  res : result A;
  final : World;
  trace : list event
}.
Global Arguments mkOutcome {A} res final trace.
Global Arguments res {A} o.
Global Arguments final {A} o.
Global Arguments trace {A} o.

(** The streaming pipeline is library code that calls back into its
    [torch_streaming_model] attribute once per step. *)
Inductive PipeProg :=
| PipeDone (r : Tensor + LibErr) (w : World)
| PipeCall (features : list Tensor) (w : World)
    (k : list Tensor -> World -> PipeProg).

Class Handler := {
  lib : forall R, call R -> World -> (R + LibErr) * World;
  pipeline_forward : Pipeline -> Tensor -> Z -> World -> PipeProg
}.

(** *** Observations on traces *)

Inductive kind :=
| KPipeline | KTorchRand | KTorchRandn | KModelForward | KJitScript | KOnnxExport
| KOnnxLoad | KCheckModel | KQuantPreProcess | KQuantizeDynamic | KOnnxsimSimplify
| KOnnxSaveModel | KSubprocessRun | KInferenceSession | KSessionRun
| KBenchmarkTimer | KAudioLoad | KAudioSave.

Definition kind_index (k : kind) : nat :=
  match k with
  | KPipeline => 0 | KTorchRand => 1 | KTorchRandn => 2 | KModelForward => 3
  | KJitScript => 4 | KOnnxExport => 5 | KOnnxLoad => 6 | KCheckModel => 7
  | KQuantPreProcess => 8 | KQuantizeDynamic => 9 | KOnnxsimSimplify => 10
  | KOnnxSaveModel => 11 | KSubprocessRun => 12 | KInferenceSession => 13
  | KSessionRun => 14 | KBenchmarkTimer => 15 | KAudioLoad => 16 | KAudioSave => 17
  end.

Definition kind_eqb (a b : kind) : bool := Nat.eqb (kind_index a) (kind_index b).

Definition kind_of {R} (c : call R) : kind :=
  match c with
  | TorchDFMinimalPipeline _ => KPipeline
  | TorchRand _ => KTorchRand
  | TorchRandn _ => KTorchRandn
  | ModelForward _ _ => KModelForward
  | JitScript _ => KJitScript
  | OnnxExport _ _ _ _ _ _ _ _ _ => KOnnxExport
  | OnnxLoad _ => KOnnxLoad
  | CheckModel _ _ => KCheckModel
  | QuantPreProcess _ _ _ => KQuantPreProcess
  | QuantizeDynamic _ _ _ => KQuantizeDynamic
  | OnnxsimSimplify _ _ _ => KOnnxsimSimplify
  | OnnxSaveModel _ _ => KOnnxSaveModel
  | SubprocessRun _ => KSubprocessRun
  | InferenceSession _ _ _ => KInferenceSession
  | SessionRun _ _ _ => KSessionRun
  | BenchmarkTimer _ _ _ _ _ => KBenchmarkTimer
  | AudioLoad _ _ => KAudioLoad
  | AudioSave _ _ _ _ _ => KAudioSave
  end.

(** The event is a call to library function [k]. *)
Definition calls (k : kind) (e : event) : bool :=
  match e with
  | Ev c _ => kind_eqb (kind_of c) k
  | _ => false
  end.

(** The event is a call to [k] that returned normally. *)
Definition returned (k : kind) (e : event) : bool :=
  match e with
  | Ev c (inl _) => kind_eqb (kind_of c) k
  | _ => false
  end.

Definition count_calls (k : kind) (tr : list event) : nat :=
  length (List.filter (calls k) tr).

Definition printed (m : message) (e : event) : Prop :=
  match e with
  | Printed m' => m' = m
  | _ => False
  end.

(** Arguments of the calls to [torch.onnx.export]: file, input names, output
    names, opset version. *)
Definition export_calls (tr : list event)
  : list (string * list string * list string * nat) :=
  omap (fun e => match e with
                 | Ev (OnnxExport _ _ f _ i o v _ _) _ => Some (f, i, o, v)
                 | _ => None
                 end) tr.

(** Arguments of the calls to [ort.InferenceSession]. *)
Definition session_calls (tr : list event)
  : list (string * SessionOptions * list string) :=
  omap (fun e => match e with
                 | Ev (InferenceSession path o providers) _ => Some (path, o, providers)
                 | _ => None
                 end) tr.

(** Command line and exit code (or failure) of the subprocess runs. *)
Definition subprocess_runs (tr : list event) : list (list string * (Z + LibErr)) :=
  omap (fun e => match e with
                 | Ev (SubprocessRun argv) r => Some (argv, r)
                 | _ => None
                 end) tr.

(** Frames returned by [torch.randn], with the size asked for. *)
Definition sampled_frames (tr : list event) : list (nat * Tensor) :=
  omap (fun e => match e with
                 | Ev (TorchRandn n) (inl t) => Some (n, t)
                 | _ => None
                 end) tr.

(** Arguments and outputs of the completed torch model calls. *)
Definition torch_runs (tr : list event) : list (Model * list Tensor * list Tensor) :=
  omap (fun e => match e with
                 | Ev (ModelForward m args) (inl outs) => Some (m, args, outs)
                 | _ => None
                 end) tr.

(** Session, requested outputs, feed and outputs of the completed session runs. *)
Definition onnx_runs (tr : list event)
  : list (Session * list string * gmap string NdArray * list NdArray) :=
  omap (fun e => match e with
                 | Ev (SessionRun s names feed) (inl outs) => Some (s, names, feed, outs)
                 | _ => None
                 end) tr.

(** Arguments of the calls to [torchaudio.save]. *)
Definition audio_saves (tr : list event) : list (string * Tensor * Z * string * nat) :=
  omap (fun e => match e with
                 | Ev (AudioSave path src sr enc bits) _ => Some (path, src, sr, enc, bits)
                 | _ => None
                 end) tr.

(** The event is a session run as made by the lambda of [infer_onnx_model]. *)
Definition is_backend_run (s : Session) (e : event) : Prop :=
  match e with
  | Ev (SessionRun s' names feed) _ =>
      s' = s /\ names = OUTPUT_NAMES
      /\ exists features, feed = generate_onnx_features features
  | _ => False
  end.

(** The event is a pipeline entry or a call to one of [ks]. *)
Definition only_calls (ks : list kind) (e : event) : bool :=
  match e with
  | Ev c _ => existsb (kind_eqb (kind_of c)) ks
  | Printed _ => false
  | PipelineEnter _ _ _ => true
  end.

(** One completed iteration of [test_onnx_model]: the sampled frame, the
    outputs of the torch model and the outputs of the session. *)
Definition iteration : Type := Tensor * list Tensor * list NdArray.

(** The three library calls a completed iteration makes. *)
Definition iteration_events (torch_model : Model) (ort_session : Session)
    (states : Tensor) (it : iteration) : list event :=
  [Ev (TorchRandn 480) (inl it.1.1);
   Ev (ModelForward torch_model [it.1.1; deepcopy states]) (inl it.1.2);
   Ev (SessionRun ort_session ["enhanced_audio_frame"; "out_states"]
         {[ "input_frame" := to_numpy it.1.1 ]}) (inl it.2)].

(** The output pairs an iteration compares: torch output, session output as
    a tensor, output name. *)
Definition compared (it : iteration) : list (Tensor * Tensor * string) :=
  (fun xyn => (xyn.1.1, from_numpy xyn.1.2, xyn.2))
    <$> zip3 it.1.2 it.2 ["enhanced_audio_frame"; "out_states"].

(** The pair passes [torch.allclose] with [atol = 0.01]. *)
Definition close (c : Tensor * Tensor * string) : Prop :=
  allclose (1 # 100) c.1.1 c.1.2 = inl true.

(** The elementwise test of [torch.allclose]: [|u - v| <= atol + rtol * |v|]. *)
Definition within_tolerance (rtol atol u v : Q) : Prop :=
  (Qabs (u - v) <= atol + rtol * Qabs v)%Q.

(** [torch.allclose] is library code; this is its documented meaning.  Called
    as [torch.allclose(x, y, atol=a)] it keeps its default [rtol = 1e-05] and
    [equal_nan = False], and on two tensors of the same shape with finite
    entries, read as numbers by [val], it returns, and its answer is whether
    every pair of corresponding entries is within tolerance.  On other
    shapes it broadcasts or raises; nothing is said about those here. *)
Definition allclose_as_documented (val : scalar -> Q)
    (same_shape : Tensor -> Tensor -> Prop) : Prop :=
  forall atol x y,
    same_shape x y ->
    exists b : bool,
      allclose atol x y = inl b
      /\ (b = true
          <-> Forall2 (within_tolerance (1 # 100000) atol)
                      (val <$> flat x) (val <$> flat y)).

(** The diagnostic of a failed comparison in iteration [i]. *)
Definition diagnostic (i : nat) (c : Tensor * Tensor * string) : assert_msg :=
  AssertOut c.2 i (py_slice_last 5 (flat c.1.1)) (py_slice_last 5 (flat c.1.2)).

(** The events of an iteration cut short by the failure [e] of one of its
    library calls. *)
Definition unfinished_iteration (torch_model : Model) (ort_session : Session)
    (states : Tensor) (e : LibErr) (rest : list event) : Prop :=
  rest = [Ev (TorchRandn 480) (inr e)]
  \/ (exists frame,
        rest = [Ev (TorchRandn 480) (inl frame);
                Ev (ModelForward torch_model [frame; deepcopy states]) (inr e)])
  \/ (exists frame out_t,
        rest = [Ev (TorchRandn 480) (inl frame);
                Ev (ModelForward torch_model [frame; deepcopy states]) (inl out_t);
                Ev (SessionRun ort_session ["enhanced_audio_frame"; "out_states"]
                      {[ "input_frame" := to_numpy frame ]}) (inr e)]).

(** Every pair the iteration compares is close. *)
Definition all_close (it : iteration) : Prop := Forall close (compared it).

(** What the check on a pair that is not close raises in iteration [i]: the
    diagnostic of the pair when [torch.allclose] answered, the library's
    error when [torch.allclose] itself raised. *)
Definition raised_on (i : nat) (c : Tensor * Tensor * string) : result unit :=
  match allclose (1 # 100) c.1.1 c.1.2 with
  | inl _ => Raise (AssertionError (diagnostic i c))
  | inr e => Raise (LibraryError e)
  end.

(** The iteration's first pair that is not close ends the run with [r]. *)
Definition fails_at (i : nat) (it : iteration) (r : result unit) : Prop :=
  exists before c after,
    compared it = before ++ c :: after /\ Forall close before /\ ~ close c
    /\ r = raised_on i c.

(** Every graph file the event reads or writes is [path], with the options
    the script fixes for that stage. *)
Definition on_output_path (path : string) (e : event) : Prop :=
  match e with
  | Ev (OnnxExport _ _ f _ _ _ _ _ _) _ => f = path
  | Ev (OnnxLoad p) _ => p = path
  | Ev (CheckModel _ full_check) _ => full_check = true
  | Ev (QuantPreProcess input output skip) _ =>
      input = path /\ output = path /\ skip = false
  | Ev (QuantizeDynamic input output weight_type) _ =>
      input = path /\ output = path /\ weight_type = QUInt8
  | Ev (OnnxSaveModel _ p) _ => p = path
  | Ev (SubprocessRun argv) _ =>
      argv = ["python"; "-m"; "onnxruntime.tools.convert_onnx_models_to_ort"; path;
              "--optimization_style"; "Fixed"]
  | Ev (InferenceSession p o _) _ => p = path /\ optimized_model_filepath o = path
  | _ => True
  end.



(** An exception the script raises itself. *)
Definition script_exn (e : exn) : Prop :=
  match e with
  | LibraryError _ => False
  | _ => True
  end.

(** The library functions called, in order. *)
Definition kinds (tr : list event) : list kind :=
  omap (fun e => match e with
                 | Ev c _ => Some (kind_of c)
                 | _ => None
                 end) tr.

(** The library calls of [main] up to the check run of the session. *)
Definition stages (args : Args) : list kind :=
  [KPipeline; KTorchRand; KModelForward; KJitScript; KOnnxExport; KOnnxLoad;
   KCheckModel; KQuantPreProcess; KQuantizeDynamic]
  ++ (if ort args then [KSubprocessRun] else [])
  ++ [KInferenceSession; KSessionRun].

(** Results of the calls to [onnxsim.simplify]. *)
Definition simplify_results (tr : list event) : list (OnnxModel * bool + LibErr) :=
  omap (fun e => match e with
                 | Ev (OnnxsimSimplify _ _ _) r => Some r
                 | _ => None
                 end) tr.

(** Arguments of the calls to [onnx.save_model]. *)
Definition model_saves (tr : list event) : list (OnnxModel * string) :=
  omap (fun e => match e with
                 | Ev (OnnxSaveModel m path) _ => Some (m, path)
                 | _ => None
                 end) tr.

(** Arguments of the calls to [onnx.checker.check_model]. *)
Definition model_checks (tr : list event) : list (OnnxModel * bool) :=
  omap (fun e => match e with
                 | Ev (CheckModel m full_check) _ => Some (m, full_check)
                 | _ => None
                 end) tr.

(** A session run, direct or timed, asks for [OUTPUT_NAMES] and feeds at most
    the key ["input_frame"]. *)
Definition feeds_frame_only (e : event) : Prop :=
  match e with
  | Ev (SessionRun _ names feed) _ =>
      names = OUTPUT_NAMES /\ size feed <= 1
      /\ forall k, is_Some (feed !! k) -> k = "input_frame"
  | Ev (BenchmarkTimer _ names feed _ _) _ =>
      names = OUTPUT_NAMES /\ size feed <= 1
      /\ forall k, is_Some (feed !! k) -> k = "input_frame"
  | _ => True
  end.

(** The library function whose completion a printed line announces. *)
Definition announces (m : message) : option kind :=
  match m with
  | MsgExported _ => Some KOnnxExport
  | MsgChecked _ => Some KCheckModel
  | MsgPreprocessed _ => Some KQuantPreProcess
  | MsgQuantized _ => Some KQuantizeDynamic
  | MsgSimplified _ => Some KOnnxSaveModel
  | MsgOrtConverted => Some KSubprocessRun
  | MsgSessionOk _ => Some KSessionRun
  | MsgMedian _ _ => Some KBenchmarkTimer
  | MsgEnhanced _ => Some KAudioSave
  | MsgNumParams _ | MsgCheckingModel | MsgTestsPassed | MsgPerfCheck => None
  end.

Definition announced (tr : list event) : list kind :=
  omap (fun e => match e with
                 | Printed m => announces m
                 | _ => None
                 end) tr.

(** Library functions called by the audio stage. *)
Definition audio_kinds : list kind := [KAudioLoad; KSessionRun; KAudioSave].

(** *** The script's computations: world passing, exceptions, trace *)

Section Run.
Context {H : Handler}.

Definition M (A : Type) : Type := World -> outcome A.

Definition ret {A} (a : A) : M A := fun w => mkOutcome (Ok a) w [].

Definition throw {A} (e : exn) : M A := fun w => mkOutcome (Raise e) w [].

Definition bind {A B} (m : M A) (f : A -> M B) : M B := fun w =>
  let o := m w in
  match res o with
  | Ok a =>
      let o' := f a (final o) in
      mkOutcome (res o') (final o') (trace o ++ trace o')
  | Raise e => mkOutcome (Raise e) (final o) (trace o)
  end.

Definition print (m : message) : M unit := fun w => mkOutcome (Ok tt) w [Printed m].

(** A library call: the handler answers, the call and its answer are logged,
    and a library failure propagates as an exception. *)
Definition ext {R} (c : call R) : M R := fun w =>
  let rw := lib R c w in
  mkOutcome (match rw.1 with inl a => Ok a | inr e => Raise (LibraryError e) end)
            rw.2 [Ev c rw.1].

Declare Scope run_scope.
Delimit Scope run_scope with run.
Notation "x <- m ;; k" := (bind m (fun x => k))
  (at level 100, m at next level, k at level 200, right associativity) : run_scope.
Notation "m ;; k" := (bind m (fun _ => k))
  (at level 100, k at level 200, right associativity) : run_scope.
Local Open Scope run_scope.

(** [for i in range(n)], counting from [i]. *)
Fixpoint for_range_from (i n : nat) (body : nat -> M unit) : M unit :=
  match n with
  | O => ret tt
  | S n' => body i ;; for_range_from (S i) n' body
  end.

Definition for_range (n : nat) (body : nat -> M unit) : M unit :=
  for_range_from 0 n body.

Fixpoint for_each {A} (l : list A) (body : A -> M unit) : M unit :=
  match l with
  | [] => ret tt
  | x :: l' => body x ;; for_each l' body
  end.

(** A library function that computes an answer from its arguments alone:
    nothing is logged, and its failure propagates as an exception. *)
Definition answered {A} (r : A + LibErr) : M A :=
  match r with
  | inl a => ret a
  | inr e => throw (LibraryError e)
  end.

(** [assert cond, msg] *)
Definition py_assert (cond : bool) (msg : assert_msg) : M unit :=
  if cond then ret tt else throw (AssertionError msg).

(** [l[i]] on a Python list, for a non-negative index. *)
Definition py_index {A} (l : list A) (i : nat) : M A :=
  match l !! i with
  | Some x => ret x
  | None => throw IndexError
  end.

(** *** onnx_simplify (lines 29-54) *)

Definition onnx_simplify (path : string) (input_data : gmap string NdArray)
    (input_shapes : gmap string (list nat)) : M string :=
  model <- ext (OnnxLoad path) ;;
  simp <- ext (OnnxsimSimplify model input_data input_shapes) ;;
  py_assert simp.2 (AssertText "Simplified ONNX model could not be validated") ;;
  ext (CheckModel simp.1 true) ;;
  ext (OnnxSaveModel simp.1 path) ;;
  ret path.

(** *** test_onnx_model (lines 57-84) *)

Definition check_outputs (i : nat) (output_torch : list Tensor)
    (output_onnx : list NdArray) : M unit :=
  for_each (zip3 output_torch output_onnx OUTPUT_NAMES) (fun xyn =>
    let x := xyn.1.1 in
    let y_tensor := from_numpy xyn.1.2 in
    let name := xyn.2 in
    ok <- answered (allclose (1 # 100) x y_tensor) ;;
    py_assert ok
      (AssertOut name i (py_slice_last 5 (flat x)) (py_slice_last 5 (flat y_tensor)))).

Definition test_iteration (torch_model : Model) (ort_session : Session)
    (states_torch states_onnx : Tensor) (i : nat) : M unit :=
  input_frame <- ext (TorchRandn FRAME_SIZE) ;;
  output_torch <- ext (ModelForward torch_model [input_frame; states_torch]) ;;
  output_onnx <- ext (SessionRun ort_session OUTPUT_NAMES
                        (generate_onnx_features [input_frame; states_onnx])) ;;
  check_outputs i output_torch output_onnx.

Definition test_onnx_model (torch_model : Model) (ort_session : Session)
    (states : Tensor) : M unit :=
  let states_torch := deepcopy states in
  let states_onnx := deepcopy states in
  for_range 30 (test_iteration torch_model ort_session states_torch states_onnx).

(** *** perform_benchmark (lines 91-116) *)

Definition perform_benchmark (ort_session : Session)
    (input_features : gmap string NdArray) : M unit :=
  t0 <- ext (BenchmarkTimer ort_session OUTPUT_NAMES input_features 1 10) ;;
  print (MsgMedian t0 (inject_Z 480 / inject_Z 48000 * inject_Z 1000)%Q).

(** *** infer_onnx_model (lines 119-143) *)

(** The lambda installed as [torch_streaming_model]. *)
Definition onnx_backend (ort_session : Session) (features : list Tensor)
    : M (list Tensor) :=
  outs <- ext (SessionRun ort_session OUTPUT_NAMES (generate_onnx_features features)) ;;
  ret (from_numpy <$> outs).

Fixpoint run_pipeline (backend : list Tensor -> M (list Tensor)) (p : PipeProg)
    : outcome Tensor :=
  match p with
  | PipeDone (inl t) w => mkOutcome (Ok t) w []
  | PipeDone (inr e) w => mkOutcome (Raise (LibraryError e)) w []
  | PipeCall features w k =>
      let o := backend features w in
      match res o with
      | Ok outs =>
          let o' := run_pipeline backend (k outs (final o)) in
          mkOutcome (res o') (final o') (trace o ++ trace o')
      | Raise e => mkOutcome (Raise e) (final o) (trace o)
      end
  end.

(** [streaming_pipeline(audio, sr)] with the given [torch_streaming_model]. *)
Definition pipeline_call (p : Pipeline) (backend : list Tensor -> M (list Tensor))
    (audio : Tensor) (sr : Z) : M Tensor := fun w =>
  let o := run_pipeline backend (pipeline_forward p audio sr w) in
  mkOutcome (res o) (final o) (PipelineEnter p audio sr :: trace o).

Definition infer_onnx_model (streaming_pipeline : Pipeline) (ort_session : Session)
    (inference_path : string) : M unit :=
  let torch_streaming_model' := onnx_backend ort_session in
  loaded <- ext (AudioLoad inference_path true) ;;
  let sr := loaded.2 in
  let noisy_audio := unsqueeze 0 (tensor_mean 0 loaded.1) in
  enhanced_audio <- pipeline_call streaming_pipeline torch_streaming_model'
                      noisy_audio sr ;;
  ext (AudioSave (str_replace ".wav" "_onnx_infer.wav" inference_path)
         enhanced_audio sr "PCM_S" 16).

(** What a pipeline program sees when its [torch_streaming_model] is the
    lambda of [infer_onnx_model].  The features of each step reach the
    session as the feed of their first tensor alone, named ["input_frame"];
    the arrays the session returns come back as tensors, in order; a failing
    session run ends the pipeline.  [runs] are the session runs made, [r] is
    the pipeline's result and the last argument the world it leaves. *)
Definition first_tensor_feed (features : list Tensor) : gmap string NdArray :=
  match features with
  | [] => ∅
  | frame :: _ => {[ "input_frame" := to_numpy frame ]}
  end.

Inductive served (ort_session : Session)
  : PipeProg -> list event -> result Tensor -> World -> Prop :=
| served_done (t : Tensor) (w : World) :
    served ort_session (PipeDone (inl t) w) [] (Ok t) w
| served_failed (e : LibErr) (w : World) :
    served ort_session (PipeDone (inr e) w) [] (Raise (LibraryError e)) w
| served_step (features : list Tensor) (w : World)
    (k : list Tensor -> World -> PipeProg) (outs : list NdArray) (w' : World)
    (runs : list event) (r : result Tensor) (wf : World) :
    lib _ (SessionRun ort_session ["enhanced_audio_frame"; "out_states"]
             (first_tensor_feed features)) w = (inl outs, w') ->
    served ort_session (k (from_numpy <$> outs) w') runs r wf ->
    served ort_session (PipeCall features w k)
      (Ev (SessionRun ort_session ["enhanced_audio_frame"; "out_states"]
             (first_tensor_feed features)) (inl outs) :: runs) r wf
| served_run_failed (features : list Tensor) (w : World)
    (k : list Tensor -> World -> PipeProg) (e : LibErr) (w' : World) :
    lib _ (SessionRun ort_session ["enhanced_audio_frame"; "out_states"]
             (first_tensor_feed features)) w = (inr e, w') ->
    served ort_session (PipeCall features w k)
      [Ev (SessionRun ort_session ["enhanced_audio_frame"; "out_states"]
             (first_tensor_feed features)) (inr e)]
      (Raise (LibraryError e)) w'.

(** *** main (lines 152-266) *)

Definition np_prod (size : list N) : N := foldr N.mul 1%N size.

Definition count_params (torch_df : Model) : N :=
  let model_parameters := filter (fun p => p.1 = true) (parameters torch_df) in
  foldr N.add 0%N (np_prod <$> (snd <$> model_parameters)).

Definition convert_argv (path : string) : list string :=
  ["python"; "-m"; "onnxruntime.tools.convert_onnx_models_to_ort"; path;
   "--optimization_style"; "Fixed"].

Definition make_sess_options (path : string) : SessionOptions :=
  let o := SessionOptions_new in
  let o := mkSessionOptions ORT_ENABLE_EXTENDED (optimized_model_filepath o)
             (inter_op_num_threads o) (intra_op_num_threads o) (execution_mode o) in
  let o := mkSessionOptions (graph_optimization_level o) path
             (inter_op_num_threads o) (intra_op_num_threads o) (execution_mode o) in
  let o := mkSessionOptions (graph_optimization_level o) (optimized_model_filepath o)
             1 (intra_op_num_threads o) (execution_mode o) in
  let o := mkSessionOptions (graph_optimization_level o) (optimized_model_filepath o)
             (inter_op_num_threads o) 1 (execution_mode o) in
  mkSessionOptions (graph_optimization_level o) (optimized_model_filepath o)
    (inter_op_num_threads o) (intra_op_num_threads o) ORT_SEQUENTIAL.

Definition main (args : Args) : M unit :=
  streaming_pipeline <- ext (TorchDFMinimalPipeline "cpu") ;;
  let torch_df := torch_streaming_model streaming_pipeline in
  print (MsgNumParams (count_params torch_df / 1000000)%N) ;;
  input_frame <- ext (TorchRand FRAME_SIZE) ;;
  let input_features := [input_frame] in
  ext (ModelForward torch_df input_features) ;;
  torch_df_script <- ext (JitScript torch_df) ;;
  ext (OnnxExport torch_df_script input_features (output_path args) false
         INPUT_NAMES OUTPUT_NAMES 14 true true) ;;
  print (MsgExported (output_path args)) ;;
  loaded <- ext (OnnxLoad (output_path args)) ;;
  ext (CheckModel loaded true) ;;
  print (MsgChecked (output_path args)) ;;
  ext (QuantPreProcess (output_path args) (output_path args) false) ;;
  print (MsgPreprocessed (output_path args)) ;;
  ext (QuantizeDynamic (output_path args) (output_path args) QUInt8) ;;
  print (MsgQuantized (output_path args)) ;;
  let input_features_onnx := generate_onnx_features input_features in
  let input_shapes_dict := nd_shape <$> input_features_onnx in
  (if simplify args then
     throw (A := unit) (NotImplementedError "Simplify not working for flatten states!") ;;
     onnx_simplify (output_path args) input_features_onnx input_shapes_dict ;;
     print (MsgSimplified (output_path args))
   else ret tt) ;;
  (if ort args then
     returncode <- ext (SubprocessRun (convert_argv (output_path args))) ;;
     (if bool_decide (returncode <> 0%Z)
      then throw (RuntimeError "ONNX to ORT conversion failed!")
      else ret tt) ;;
     print MsgOrtConverted
   else ret tt) ;;
  print MsgCheckingModel ;;
  let sess_options := make_sess_options (output_path args) in
  ort_session <- ext (InferenceSession (output_path args) sess_options
                        ["CPUExecutionProvider"]) ;;
  onnx_outputs <- ext (SessionRun ort_session OUTPUT_NAMES input_features_onnx) ;;
  print (MsgSessionOk (nd_shape <$> onnx_outputs)) ;;
  (if test args then
     states <- py_index input_features 1 ;;
     test_onnx_model torch_df ort_session states ;;
     print MsgTestsPassed
   else ret tt) ;;
  (if performance args then
     print MsgPerfCheck ;;
     perform_benchmark ort_session input_features_onnx
   else ret tt) ;;
  (if py_truthy (inference_path args) then
     infer_onnx_model streaming_pipeline ort_session (path_of (inference_path args)) ;;
     print (MsgEnhanced (path_of (inference_path args)))
   else ret tt).

(** *** Postconditions on the result and the trace of a computation *)

Definition wpt {A} (m : M A) (Q : result A -> list event -> Prop)
    (pre : list event) (w : World) : Prop :=
  Q (res (m w)) (pre ++ trace (m w)).


End Run.
End Script.

(** ** A small executable stand-in for the libraries

    Rational samples instead of floats, tensors as flat lists, a counter as
    the world.  The session answers like the torch model run on its baked
    state, plus [drift] on every sample; the conversion subprocess exits with
    [exit_code]. *)

Module Demo.

Record config := mkConfig { exit_code : Z; drift : Q }.

Definition within (atol u v : Q) : bool :=
  Qle_bool (Qabs (u - v)) (atol + (1 # 100000) * Qabs v).

(** [torch.allclose] on one-dimensional tensors: a one-element tensor is
    broadcast against the other one, tensors of equal length are compared
    entry by entry, and for any other pair of lengths it raises. *)
Definition close_enough (atol : Q) (x y : list Q) : bool + string :=
  match x, y with
  | [u], _ => inl (forallb (within atol u) y)
  | _, [v] => inl (forallb (fun u => within atol u v) x)
  | _, _ =>
      if bool_decide (length x = length y)
      then inl (forallb (fun xy => within atol xy.1 xy.2) (zip x y))
      else inr "The size of tensor a must match the size of tensor b"
  end.

Definition same_length (x y : list Q) : Prop := length x = length y.

#[export] Instance values : Values := {|
  scalar := Q;
  Tensor := list Q;
  NdArray := list Q;
  Model := unit;
  Script := unit;
  Pipeline := unit;
  OnnxModel := unit;
  Session := unit;
  Measurement := nat;
  LibErr := string;
  World := nat;
  flat := fun x => x;
  to_numpy := fun x => x;
  from_numpy := fun x => x;
  nd_shape := fun x => [length x];
  allclose := close_enough;
  deepcopy := fun x => x;
  torch_streaming_model := fun p => p;
  parameters := fun _ => [(true, [1000%N; 2000%N]); (false, [7%N]); (true, [500000%N])];
  tensor_mean := fun _ x => x;
  unsqueeze := fun _ x => x;
  SessionOptions_new := mkSessionOptions ORT_ENABLE_ALL "" 0 0 ORT_SEQUENTIAL
|}.

(** The model halves its frame and adds one to every entry of the state it
    is given. *)
Definition forward (frame state : list Q) : list (list Q) :=
  [(fun x => x / 2)%Q <$> frame; (fun x => x + 1)%Q <$> state].

(** The state the exported graph starts from when its feed carries none. *)
Definition baked_state : list Q := [5%Q].

Definition sample (n w : nat) : list Q :=
  (fun i => inject_Z (Z.of_nat (w + i))) <$> seq 0 n.

Definition answer (cfg : config) (R : Type) (c : call R) (w : nat)
    : (R + string) * nat :=
  match c in call R return (R + string) * nat with
  | TorchDFMinimalPipeline _ => (inl tt, w)
  | TorchRand n => (inl (sample n w), S w)
  | TorchRandn n => (inl (sample n w), S w)
  | ModelForward _ args => (inl (forward (hd [] args) (default baked_state (args !! 1))), w)
  | JitScript _ => (inl tt, w)
  | OnnxExport _ _ _ _ _ _ _ _ _ => (inl tt, w)
  | OnnxLoad _ => (inl tt, w)
  | CheckModel _ _ => (inl tt, w)
  | QuantPreProcess _ _ _ => (inl tt, w)
  | QuantizeDynamic _ _ _ => (inl tt, w)
  | OnnxsimSimplify m _ _ => (inl (m, true), w)
  | OnnxSaveModel _ _ => (inl tt, w)
  | SubprocessRun _ => (inl (exit_code cfg), w)
  | InferenceSession _ _ _ => (inl tt, w)
  | SessionRun _ _ feed =>
      match feed !! "input_frame" with
      | Some frame =>
          (inl ((fun t : list Q => (fun x => x + drift cfg)%Q <$> t) <$> forward frame baked_state), w)
      | None => (inr "missing input_frame", w)
      end
  | BenchmarkTimer _ _ _ _ _ => (inl 3, w)
  | AudioLoad _ _ => (inl ([1; 2; 3]%Q, 48000%Z), w)
  | AudioSave _ _ _ _ _ => (inl tt, w)
  end.

(** The pipeline feeds the audio to its model one sample at a time and
    concatenates the first output of each step. *)
Fixpoint stream (samples acc : list Q) (w : nat) : PipeProg :=
  match samples with
  | [] => PipeDone (inl acc) w
  | x :: rest => PipeCall [[x]] w (fun outs w' => stream rest (acc ++ hd [] outs) w')
  end.

Definition handler (cfg : config) : Handler := {|
  lib := answer cfg;
  pipeline_forward := fun _ audio _ w => stream audio [] w
|}.

(** The same libraries, with a torch model that always returns [torch_out]
    and a session that always returns [onnx_out]. *)
Definition answer_fixed (torch_out onnx_out : list (list Q)) (R : Type)
    (c : call R) (w : nat) : (R + string) * nat :=
  match c in call R return (R + string) * nat with
  | ModelForward _ _ => (inl torch_out, w)
  | SessionRun _ _ _ => (inl onnx_out, w)
  | c' => answer (mkConfig 0 0) _ c' w
  end.

Definition fixed_outputs (torch_out onnx_out : list (list Q)) : Handler := {|
  lib := answer_fixed torch_out onnx_out;
  pipeline_forward := fun _ audio _ w => stream audio [] w
|}.

Definition good : config := mkConfig 0 0.
Definition drifting : config := mkConfig 0 (1 # 10).
Definition failing_conversion : config := mkConfig 1 0.

Definition args0 : Args :=
  mkArgs "denoiser_model.onnx" false false false None false false.

Definition test_args : Args :=
  mkArgs "denoiser_model.onnx" false true false None false false.

Definition flagged_args : Args :=
  mkArgs "denoiser_model.onnx" false false true (Some "noisy.wav") true true.

Definition unflagged_args : Args :=
  mkArgs "denoiser_model.onnx" false false true (Some "noisy.wav") true false.

End Demo.

(** ** Properties *)

(** *** Python strings *)

Lemma str_replace_absent (old new s : string) :
  py_in old s = false -> str_replace old new s = s.
Proof.
  unfold str_replace. induction s as [|c s IH]; [done|].
  cbn [py_in str_replace_skip]. intros Hin%orb_false_elim. destruct Hin as [Hst Hin].
  rewrite Hst. f_equal. by apply IH.
Qed.

Lemma append_nil_l (q : string) : (EmptyString ++ q)%string = q.
Proof. reflexivity. Qed.

Lemma append_cons_l (c : Ascii.ascii) (s q : string) :
  (String c s ++ q)%string = String c (s ++ q)%string.
Proof. reflexivity. Qed.

Lemma startswith_app (p s t : string) :
  startswith p (s ++ t)%string = true ->
  startswith p s = true
  \/ exists q, p = (s ++ q)%string /\ q <> EmptyString /\ startswith q t = true.
Proof.
  revert s. induction p as [|a p IH]; intros s Hst.
  - left. by destruct s.
  - destruct s as [|b s].
    + right. exists (String a p). by rewrite append_nil_l in *.
    + rewrite append_cons_l in Hst. simpl in *.
      destruct (Ascii.eqb a b) eqn:Hab; [|done].
      apply Ascii.eqb_eq in Hab as ->.
      destruct (IH s Hst) as [Hp|(q & -> & Hq & Hqt)]; [by left|].
      right. exists q. by rewrite append_cons_l.
Qed.

Lemma startswith_wav_boundary (s : string) :
  s <> EmptyString ->
  startswith ".wav" (s ++ ".wav")%string = true ->
  startswith ".wav" s = true.
Proof.
  intros Hs Hst. destruct (startswith_app _ _ _ Hst) as [Hp|(q & Hsq & Hq & Hqt)]; [done|].
  exfalso.
  destruct s as [|c1 s]; [done|].
  rewrite append_cons_l in Hsq. injection Hsq as <- Hsq.
  destruct s as [|c2 s]; [rewrite append_nil_l in Hsq; subst q; discriminate Hqt|].
  rewrite append_cons_l in Hsq. injection Hsq as <- Hsq.
  destruct s as [|c3 s]; [rewrite append_nil_l in Hsq; subst q; discriminate Hqt|].
  rewrite append_cons_l in Hsq. injection Hsq as <- Hsq.
  destruct s as [|c4 s]; [rewrite append_nil_l in Hsq; subst q; discriminate Hqt|].
  rewrite append_cons_l in Hsq. injection Hsq as <- Hsq.
  destruct s; [rewrite append_nil_l in Hsq; by subst q|].
  rewrite append_cons_l in Hsq. discriminate Hsq.
Qed.

Lemma str_replace_wav_suffix (stem : string) :
  py_in ".wav" stem = false ->
  str_replace ".wav" "_onnx_infer.wav" (stem ++ ".wav")%string
  = (stem ++ "_onnx_infer.wav")%string.
Proof.
  unfold str_replace. induction stem as [|c stem IH]; [done|].
  intros Hin. change (py_in ".wav" (String c stem))
    with (startswith ".wav" (String c stem) || py_in ".wav" stem) in Hin.
  apply orb_false_elim in Hin as [Hst Hin].
  rewrite !append_cons_l. cbn [str_replace_skip].
  destruct (startswith ".wav" (String c (stem ++ ".wav"))) eqn:Hst'.
  - apply (startswith_wav_boundary (String c stem)) in Hst'; [congruence|done].
  - f_equal. by apply IH.
Qed.

Section Properties.
Context `{V : Values} {H : Handler}.

Lemma generate_onnx_features_cons (f : Tensor) (rest : list Tensor) :
  generate_onnx_features (f :: rest) = {[ "input_frame" := to_numpy f ]}.
Proof. reflexivity. Qed.

Lemma generate_onnx_features_nil : generate_onnx_features [] = ∅.
Proof. reflexivity. Qed.

(** C6. [generate_onnx_features] returns a dict with
    [min (len INPUT_NAMES) (len input_features)] entries, hence at most one;
    its only possible key is ["input_frame"]; the result depends on the first
    feature alone, and a second element (a state tensor) and everything after
    it never reach the feed. *)
Theorem generate_onnx_features_keeps_first_only (input_features : list Tensor) :
  size (generate_onnx_features input_features)
    = Nat.min (length INPUT_NAMES) (length input_features)
  /\ size (generate_onnx_features input_features) <= 1
  /\ (forall k, is_Some (generate_onnx_features input_features !! k) -> k = "input_frame")
  /\ generate_onnx_features input_features = generate_onnx_features (take 1 input_features)
  /\ (forall f state rest,
        generate_onnx_features (f :: state :: rest) = {[ "input_frame" := to_numpy f ]}).
Proof.
  destruct input_features as [|f rest].
  - rewrite generate_onnx_features_nil, map_size_empty.
    repeat split; try done; try lia.
    intros k [x Hx]. by rewrite lookup_empty in Hx.
  - rewrite generate_onnx_features_cons, map_size_singleton.
    repeat split; try done; try (simpl; lia).
    intros k [x Hx]. apply lookup_singleton_Some in Hx. by destruct Hx.
Qed.

(** *** Rules for postconditions *)

Lemma wpt_ret {A} (a : A) Q pre w : Q (Ok a) pre -> wpt (ret a) Q pre w.
Proof. unfold wpt; simpl. by rewrite app_nil_r. Qed.

Lemma wpt_throw {A} (e : exn) (Q : result A -> _) pre w :
  Q (Raise e) pre -> wpt (throw e) Q pre w.
Proof. unfold wpt; simpl. by rewrite app_nil_r. Qed.

Lemma wpt_print (m : message) Q pre w :
  Q (Ok tt) (pre ++ [Printed m]) -> wpt (print m) Q pre w.
Proof. done. Qed.

Lemma wpt_ext {R} (c : call R) Q pre w :
  (forall r : R + LibErr,
      Q (match r with inl a => Ok a | inr e => Raise (LibraryError e) end)
        (pre ++ [Ev c r])) ->
  wpt (ext c) Q pre w.
Proof. intros HQ. unfold wpt, ext; simpl. apply HQ. Qed.

Lemma wpt_bind {A B} (m : M A) (f : A -> M B) Q pre w :
  wpt m (fun r t => match r with
                    | Ok a => forall w', wpt (f a) Q t w'
                    | Raise e => Q (Raise e) t
                    end) pre w ->
  wpt (bind m f) Q pre w.
Proof.
  unfold wpt, bind; simpl. destruct (res (m w)) as [a|e]; simpl.
  - intros HQ. specialize (HQ (final (m w))). by rewrite app_assoc.
  - done.
Qed.

Lemma wpt_conseq {A} (m : M A) (Q Q' : result A -> list event -> Prop) pre w :
  wpt m Q' pre w -> (forall r t, Q' r t -> Q r t) -> wpt m Q pre w.
Proof. unfold wpt. auto. Qed.

Lemma wpt_run {A} (m : M A) (Q : result A -> list event -> Prop) w :
  wpt m Q [] w -> Q (res (m w)) (trace (m w)).
Proof. done. Qed.

Lemma py_index_singleton_1 {A} (x : A) : py_index [x] 1 = throw IndexError.
Proof. reflexivity. Qed.

Ltac wp_step :=
  lazymatch goal with
  | |- forall _, _ => intro
  | |- wpt (bind _ _) _ _ _ => apply wpt_bind
  | |- wpt (ext _) _ _ _ => apply wpt_ext; intros [?|?]
  | |- wpt (print _) _ _ _ => apply wpt_print
  | |- wpt (ret _) _ _ _ => apply wpt_ret
  | |- wpt (throw _) _ _ _ => apply wpt_throw
  | |- wpt (if ?b then _ else _) _ _ _ => destruct b eqn:?
  | |- wpt (py_index [_] 1) _ _ _ => rewrite py_index_singleton_1
  end; cbv beta iota.


(** *** The audio stage *)

Lemma onnx_backend_run (s : Session) (features : list Tensor) (w : World) :
  let o := onnx_backend s features w in
  exists r : list NdArray + LibErr,
    trace o = [Ev (SessionRun s OUTPUT_NAMES (generate_onnx_features features)) r]
    /\ res o = match r with
               | inl outs => Ok (from_numpy <$> outs)
               | inr e => Raise (LibraryError e)
               end.
Proof.
  unfold onnx_backend, bind, ext, ret; simpl.
  destruct (lib _ (SessionRun s OUTPUT_NAMES (generate_onnx_features features)) w)
    as [[outs|e] w']; simpl; eexists; split; reflexivity.
Qed.

Lemma run_pipeline_backend_only (s : Session) (p : PipeProg) :
  let o := run_pipeline (onnx_backend s) p in
  Forall (fun e => is_backend_run s e) (trace o)
  /\ (res o = Raise IndexError -> False)
  /\ (forall e, res o = Raise e -> exists e', e = LibraryError e').
Proof.
  induction p as [[t|e] w|features w k IH]; simpl.
  - repeat split; [constructor|done|done].
  - repeat split; [constructor|done|]. intros ? [= <-]. eauto.
  - destruct (onnx_backend_run s features w) as (r & Htr & Hres).
    rewrite Hres, Htr. destruct r as [outs|e]; simpl.
    + destruct (IH (from_numpy <$> outs) (final (onnx_backend s features w)))
        as (Hev & Hidx & Hlib).
      repeat split; [|done|done].
      constructor; [|done]. simpl. repeat split; eauto.
    + repeat split; [|done|intros ? [= <-]; eauto].
      constructor; [|constructor]. simpl. repeat split; eauto.
Qed.

Lemma infer_onnx_model_events (p : Pipeline) (s : Session) (path : string) (w : World) :
  let o := infer_onnx_model p s path w in
  Forall (fun e => only_calls audio_kinds e = true) (trace o)
  /\ (forall e, res o = Raise e -> exists e', e = LibraryError e').
Proof.
  unfold infer_onnx_model, bind, ext; simpl.
  destruct (lib _ (AudioLoad path true) w) as [[[audio sr]|e] w1]; simpl.
  2:{ split; [repeat constructor|]. intros ? [= <-]; eauto. }
  unfold pipeline_call; simpl.
  set (prog := pipeline_forward p _ sr w1).
  destruct (run_pipeline_backend_only s prog) as (Hev & _ & Hlib).
  assert (Hev' : Forall (fun e => only_calls audio_kinds e = true)
                   (trace (run_pipeline (onnx_backend s) prog))).
  { eapply Forall_impl; [exact Hev|]. intros [R c r| |]; simpl; try done.
    destruct c; simpl; try done. }
  destruct (res (run_pipeline (onnx_backend s) prog)) as [enhanced|e] eqn:Hres; simpl.
  - destruct (lib _ (AudioSave _ enhanced sr "PCM_S" 16) _) as [[[]|e] w2]; simpl.
    + split; [|done]. constructor; [done|]. constructor; [done|].
      apply Forall_app; split; [done|]. by repeat constructor.
    + split; [|intros ? [= <-]; eauto]. constructor; [done|]. constructor; [done|].
      apply Forall_app; split; [done|]. by repeat constructor.
  - split; [|intros ? [= <-]; eauto]. constructor; [done|]. by constructor.
Qed.

Lemma wpt_infer (p : Pipeline) (s : Session) (path : string) Q pre w :
  (forall r evs,
      Forall (fun e => only_calls audio_kinds e = true) evs ->
      (forall e, r = Raise e -> exists e', e = LibraryError e') ->
      Q r (pre ++ evs)) ->
  wpt (infer_onnx_model p s path) Q pre w.
Proof.
  intros HQ. unfold wpt.
  destruct (infer_onnx_model_events p s path w) as [Hev Hres]. by apply HQ.
Qed.

Lemma omap_app_audio {X} (f : event -> option X) (evs l : list event) :
  Forall (fun e => only_calls audio_kinds e = true) evs ->
  (forall e, only_calls audio_kinds e = true -> f e = None) ->
  list_omap event X f (evs ++ l) = list_omap event X f l.
Proof.
  intros Hev Hf. induction Hev as [|e evs He _ IH]; [done|].
  simpl. by rewrite (Hf e He).
Qed.

Lemma omap_audio {X} (f : event -> option X) (evs : list event) :
  Forall (fun e => only_calls audio_kinds e = true) evs ->
  (forall e, only_calls audio_kinds e = true -> f e = None) ->
  list_omap event X f evs = [].
Proof.
  intros Hev Hf. rewrite <- (app_nil_r evs). by rewrite omap_app_audio.
Qed.

Lemma kind_eqb_eq (a b : kind) : kind_eqb a b = true <-> a = b.
Proof.
  unfold kind_eqb. rewrite Nat.eqb_eq. split; [|by intros ->].
  destruct a, b; simpl; intros E; try reflexivity; discriminate E.
Qed.

Lemma filter_calls_audio (k : kind) (evs : list event) :
  Forall (fun e => only_calls audio_kinds e = true) evs ->
  existsb (kind_eqb k) audio_kinds = false ->
  List.filter (calls k) evs = [].
Proof.
  intros Hev Hk.
  induction Hev as [|e evs He _ IH]; [done|]. simpl.
  destruct (calls k e) eqn:Hc; [|done].
  exfalso. destruct e as [R c r| |]; simpl in *; try done.
  apply kind_eqb_eq in Hc. subst k. congruence.
Qed.

Lemma existsb_returned_audio (k : kind) (evs : list event) :
  Forall (fun e => only_calls audio_kinds e = true) evs ->
  existsb (kind_eqb k) audio_kinds = false ->
  existsb (returned k) evs = false.
Proof.
  intros Hev Hk.
  induction Hev as [|e evs He _ IH]; [done|]. simpl. rewrite IH, orb_false_r.
  destruct (returned k e) eqn:Hc; [|done].
  exfalso. destruct e as [R c [a|err]| |]; simpl in *; try done.
  apply kind_eqb_eq in Hc. subst k. congruence.
Qed.

Ltac solve_not_audio :=
  let e := fresh in
  intros e; destruct e as [? [] ?| |]; done.

Ltac trace_simpl :=
  unfold export_calls, session_calls, subprocess_runs, sampled_frames,
    audio_saves, count_calls, make_sess_options in *;
  simpl;
  repeat match goal with
    | Hev : Forall _ ?evs |- context [list_omap _ _ ?f (?evs ++ ?l)] =>
        rewrite (omap_app_audio f evs l Hev) by solve_not_audio
    | Hev : Forall _ ?evs |- context [List.filter (calls ?k) (?evs ++ ?l)] =>
        rewrite (List.filter_app (calls k) evs l),
          (filter_calls_audio k evs Hev) by reflexivity
    | Hev : Forall _ ?evs |- context [existsb (returned ?k) (?evs ++ ?l)] =>
        rewrite (existsb_app (returned k) evs l),
          (existsb_returned_audio k evs Hev) by reflexivity
    | Hev : Forall _ ?evs |- context [list_omap _ _ ?f ?evs] =>
        rewrite (omap_audio f evs Hev) by solve_not_audio
    | Hev : Forall _ ?evs |- context [List.filter (calls ?k) ?evs] =>
        rewrite (filter_calls_audio k evs Hev) by reflexivity
    | Hev : Forall _ ?evs |- context [existsb (returned ?k) ?evs] =>
        rewrite (existsb_returned_audio k evs Hev) by reflexivity
    end;
  simpl.

Ltac run_main :=
  cbv zeta;
  lazymatch goal with
  | |- context [main ?a ?w] =>
      pattern (res (main a w)), (trace (main a w)); apply wpt_run
  end;
  unfold main, perform_benchmark;
  repeat first
    [ wp_step
    | lazymatch goal with
      | |- wpt (infer_onnx_model _ _ _) _ _ _ =>
          apply wpt_infer; intros [?|?] ? ? ?; cbv beta iota
      end ].


Ltac lib_only :=
  repeat match goal with
    | Hr : forall e, Raise ?x = Raise e -> exists _, _ |- _ =>
        destruct (Hr _ eq_refl) as [? ->]
    end.

(** C7. Every call of [torch.onnx.export] made by [main] writes to
    [args.output_path] with input names [["input_frame"]], output names
    [["enhanced_audio_frame"; "out_states"]] and opset version 14.  No run
    exports twice.  A run that returns normally, or that ends in one of the
    script's own exceptions, has made exactly that one export; a run without
    an export ended in the failure of a library call, and that call is the
    pipeline constructor, [torch.rand], the model call or [torch.jit.script]:
    nothing else comes before the export.  Every run in which scripting the
    model returned makes the export call.  [INPUT_NAMES] holds one name. *)
Theorem export_fixed_names_and_opset (args : Args) (w : World) :
  let o := main args w in
  let exported := (output_path args, ["input_frame"],
                   ["enhanced_audio_frame"; "out_states"], 14) in
  Forall (fun c => c = exported) (export_calls (trace o))
  /\ length (export_calls (trace o)) <= 1
  /\ (existsb (returned KJitScript) (trace o) = true ->
      length (export_calls (trace o)) = 1)
  /\ length INPUT_NAMES = 1
  /\ (res o = Ok tt -> export_calls (trace o) = [exported])
  /\ (forall e, res o = Raise e -> script_exn e ->
        export_calls (trace o) = [exported])
  /\ (export_calls (trace o) = [exported]
      \/ (exists e, res o = Raise (LibraryError e))
         /\ export_calls (trace o) = []
         /\ existsb (returned KJitScript) (trace o) = false
         /\ Forall (fun k => k = KPipeline \/ k = KTorchRand \/ k = KModelForward
                             \/ k = KJitScript) (kinds (trace o))).
Proof.
  run_main.
  all: trace_simpl.
  all: lib_only.
  all: split_and!; try done; try lia; try (by repeat constructor).
  all: try (intros ? [= <-] []).
  all: try (left; done).
  all: right; split_and!; [by eexists|done|done|]; unfold kinds; simpl.
  all: repeat (apply List.Forall_cons;
                 [first [ by left | by right; left | by right; right; left
                        | by right; right; right ]|]).
  all: apply Forall_nil_2.
Qed.

(** C2. With [--simplify], no run of [main] calls [onnxsim.simplify] or saves
    a simplified model, starts the conversion subprocess or builds a session;
    every such run ends in an exception, which is the [NotImplementedError] of
    line 212 unless a library call of an earlier stage failed, and is that
    [NotImplementedError] whenever quantization returned.  Without the flag no
    run raises a [NotImplementedError]. *)
Theorem simplify_flag_raises_before_simplifying (args : Args) (w : World) :
  let o := main args w in
  let not_implemented := NotImplementedError "Simplify not working for flatten states!" in
  (simplify args = true ->
     count_calls KOnnxsimSimplify (trace o) = 0
     /\ count_calls KOnnxSaveModel (trace o) = 0
     /\ count_calls KSubprocessRun (trace o) = 0
     /\ count_calls KInferenceSession (trace o) = 0
     /\ (exists e, res o = Raise e)
     /\ (forall e, res o = Raise e ->
           e = not_implemented \/ exists e', e = LibraryError e')
     /\ (existsb (returned KQuantizeDynamic) (trace o) = true ->
         res o = Raise not_implemented))
  /\ (simplify args = false -> forall msg, res o <> Raise (NotImplementedError msg)).
Proof.
  run_main.
  all: trace_simpl.
  all: split; intros Hflag; try congruence.
  all: lib_only; try done.
  all: repeat split; try done; eauto.
  all: try (intros ? [= <-]; eauto).
Qed.

(** C3. [main] runs the conversion subprocess at most once, and only with
    [--ort], on the command line of lines 219-226.  When the subprocess
    returns a non-zero exit code the run raises [RuntimeError], the subprocess
    call is the last event of the run, and no session is built and no session
    run, test sampling, benchmark, audio load or audio save takes place.
    When it returns zero the run goes on to build the inference session. *)
Theorem ort_conversion_failure_is_fatal (args : Args) (w : World) :
  let o := main args w in
  length (subprocess_runs (trace o)) <= 1
  /\ (ort args = false -> subprocess_runs (trace o) = [])
  /\ (forall argv rc,
        subprocess_runs (trace o) = [(argv, inl rc)] ->
        ort args = true /\ argv = convert_argv (output_path args))
  /\ (forall argv rc,
        subprocess_runs (trace o) = [(argv, inl rc)] -> rc <> 0%Z ->
        res o = Raise (RuntimeError "ONNX to ORT conversion failed!")
        /\ last (trace o) = Some (Ev (SubprocessRun argv) (inl rc))
        /\ count_calls KInferenceSession (trace o) = 0
        /\ count_calls KSessionRun (trace o) = 0
        /\ count_calls KTorchRandn (trace o) = 0
        /\ count_calls KBenchmarkTimer (trace o) = 0
        /\ count_calls KAudioLoad (trace o) = 0
        /\ count_calls KAudioSave (trace o) = 0)
  /\ (forall argv,
        subprocess_runs (trace o) = [(argv, inl 0%Z)] ->
        count_calls KInferenceSession (trace o) = 1).
Proof.
  run_main.
  all: trace_simpl.
  all: repeat match goal with
         | Hb : bool_decide _ = true |- _ => apply bool_decide_eq_true in Hb
         | Hb : bool_decide _ = false |- _ => apply bool_decide_eq_false in Hb
         end.
  all: repeat split; try done; try lia; try congruence.
  all: try (intros; simplify_eq; done).
Qed.

(** C5. With [--test], every run of [main] ends in an exception; when the
    check run of the session (line 247) returned, that exception is the
    [IndexError] of [input_features[1]] on the one-element list
    [[input_frame]].  No frame is sampled with [torch.randn], the torch model
    and the session are called at most once each (lines 163 and 247), and
    "Tests passed!" is never printed: no test iteration executes. *)
Theorem test_flag_indexes_out_of_range (args : Args) (w : World) :
  test args = true ->
  let o := main args w in
  (exists e, res o = Raise e)
  /\ (existsb (returned KSessionRun) (trace o) = true -> res o = Raise IndexError)
  /\ sampled_frames (trace o) = []
  /\ count_calls KTorchRandn (trace o) = 0
  /\ count_calls KModelForward (trace o) <= 1
  /\ count_calls KSessionRun (trace o) <= 1
  /\ Forall (fun e => ~ printed MsgTestsPassed e) (trace o)
  /\ (forall (input_frame : Tensor) w',
        res (py_index [input_frame] 1 w') = Raise IndexError).
Proof.
  intros Htest. run_main.
  all: try congruence.
  all: trace_simpl.
  all: repeat split; eauto; try done; try lia.
  all: repeat constructor; simpl; try done; try tauto.
Qed.

(** C10. Two argument records that agree on every field except
    [always_apply_all_stages] give the same run of [main] from the same world:
    same result, same final world, same trace of library calls and printed
    lines. *)
Theorem always_apply_all_stages_is_ignored (a1 a2 : Args) (w : World) :
  output_path a1 = output_path a2 ->
  simplify a1 = simplify a2 ->
  test a1 = test a2 ->
  performance a1 = performance a2 ->
  inference_path a1 = inference_path a2 ->
  ort a1 = ort a2 ->
  main a1 w = main a2 w.
Proof.
  destruct a1, a2; simpl. intros -> -> -> -> -> ->. reflexivity.
Qed.
(** *** The correctness test *)

Lemma raised_on_not_ok (i : nat) (c : Tensor * Tensor * string) :
  raised_on i c <> Ok tt.
Proof. unfold raised_on. by destruct (allclose (1 # 100) c.1.1 c.1.2). Qed.

Lemma raised_on_raise (i : nat) (c : Tensor * Tensor * string) :
  exists e, raised_on i c = Raise e.
Proof. unfold raised_on. destruct (allclose (1 # 100) c.1.1 c.1.2); by eexists. Qed.

Lemma check_list_shape (i : nat) (l : list (Tensor * NdArray * string)) (w : World) :
  let cs := (fun xyn => (xyn.1.1, from_numpy xyn.1.2, xyn.2)) <$> l in
  let o := for_each l (fun xyn =>
             bind (answered (allclose (1 # 100) xyn.1.1 (from_numpy xyn.1.2)))
               (fun ok =>
                  py_assert ok
                    (AssertOut xyn.2 i (py_slice_last 5 (flat xyn.1.1))
                       (py_slice_last 5 (flat (from_numpy xyn.1.2)))))) w in
  trace o = [] /\
  ((res o = Ok tt /\ Forall close cs)
   \/ (exists before c after,
         cs = before ++ c :: after /\ Forall close before /\ ~ close c
         /\ res o = raised_on i c)).
Proof.
  induction l as [|[[x y] name] l IH]; simpl.
  - split; [done|]. left. split; [done|constructor].
  - unfold bind, answered, py_assert, ret, throw in *; simpl in *.
    destruct (allclose (1 # 100) x (from_numpy y)) as [[|]|e] eqn:Hclose; simpl.
    + destruct IH as [Htr [[Hres Hall]|(before & c & after & Hcs & Hbef & Hc & Hres)]].
      * rewrite Htr, Hres. split; [done|]. left. split; [done|].
        constructor; [exact Hclose|exact Hall].
      * rewrite Htr, Hres. split; [done|]. right.
        exists ((x, from_numpy y, name) :: before), c, after.
        repeat split; [simpl; f_equal; exact Hcs| |done].
        constructor; [exact Hclose|exact Hbef].
    + split; [done|]. right.
      exists [], (x, from_numpy y, name), ((fun xyn => (xyn.1.1, from_numpy xyn.1.2, xyn.2)) <$> l).
      repeat split; [constructor| |].
      * unfold close; simpl. by rewrite Hclose.
      * unfold raised_on; simpl. by rewrite Hclose.
    + split; [done|]. right.
      exists [], (x, from_numpy y, name), ((fun xyn => (xyn.1.1, from_numpy xyn.1.2, xyn.2)) <$> l).
      repeat split; [constructor| |].
      * unfold close; simpl. by rewrite Hclose.
      * unfold raised_on; simpl. by rewrite Hclose.
Qed.

Lemma test_iteration_shape (m : Model) (s : Session) (states : Tensor)
    (i : nat) (w : World) :
  let o := test_iteration m s (deepcopy states) (deepcopy states) i w in
  (exists it,
      trace o = iteration_events m s states it
      /\ ((res o = Ok tt /\ all_close it) \/ fails_at i it (res o)))
  \/ (exists e, res o = Raise (LibraryError e)
                /\ unfinished_iteration m s states e (trace o)).
Proof.
  unfold test_iteration, bind, ext; simpl.
  destruct (lib _ (TorchRandn FRAME_SIZE) w) as [[frame|e] w1]; simpl.
  2:{ right. exists e. split; [done|]. by left. }
  destruct (lib _ (ModelForward m [frame; deepcopy states]) w1) as [[ot|e] w2]; simpl.
  2:{ right. exists e. split; [done|]. right; left. by exists frame. }
  destruct (lib _ (SessionRun s OUTPUT_NAMES
                     (generate_onnx_features [frame; deepcopy states])) w2)
    as [[oo|e] w3]; simpl.
  2:{ right. exists e. split; [done|]. right; right. by exists frame, ot. }
  left. exists (frame, ot, oo).
  destruct (check_list_shape i (zip3 ot oo OUTPUT_NAMES) w3) as [Htr Hres].
  unfold check_outputs. rewrite Htr. split; [done|exact Hres].
Qed.

Lemma test_loop_shape (m : Model) (s : Session) (states : Tensor) (n : nat) :
  forall (i : nat) (w : World),
  let o := for_range_from i n
             (test_iteration m s (deepcopy states) (deepcopy states)) w in
  exists (its : list iteration) (rest : list event),
    trace o = concat (iteration_events m s states <$> its) ++ rest
    /\ ((res o = Ok tt /\ length its = n /\ rest = [] /\ Forall all_close its)
        \/ (exists e, res o = Raise (LibraryError e) /\ Forall all_close its
                      /\ length its < n /\ unfinished_iteration m s states e rest)
        \/ (exists init it, its = init ++ [it] /\ rest = [] /\ Forall all_close init
                      /\ length its <= n
                      /\ fails_at (i + length init) it (res o))).
Proof.
  induction n as [|n IH]; intros i w; simpl.
  - exists [], []. split; [done|]. left. repeat split; constructor.
  - unfold bind.
    destruct (test_iteration_shape m s states i w)
      as [(it & Htr & [[Hres Hall]|Hfail])|(e & Hres & Hlen)].
    + rewrite Hres, Htr; simpl.
      destruct (IH (S i) (final (test_iteration m s (deepcopy states)
                                   (deepcopy states) i w)))
        as (its & rest & Htr' & Hcases).
      exists (it :: its), rest. rewrite Htr'. split; [done|].
      destruct Hcases as [(Hr & Hl & Hrest & Hclose)
                         |[(e & Hr & Hclose & Hl & Hrest)
                          |(init & it' & Hits & Hrest & Hclose & Hl & Hf)]].
      * left. rewrite Hr. repeat split; [simpl; lia|done|by constructor].
      * right; left. exists e. rewrite Hr.
        repeat split; [by constructor|simpl; lia|done].
      * right; right. exists (it :: init), it'. rewrite Hits.
        repeat split; [done|by constructor|simpl; rewrite <- Hits; lia|].
        simpl. by replace (i + S (length init)) with (S i + length init) by lia.
    + destruct Hfail as (before & c & after & Hcmp & Hbef & Hc & Hres).
      destruct (raised_on_raise i c) as [ex Hex].
      rewrite Hres, Hex, Htr; simpl.
      exists [it], []. split; [done|]. right; right. exists [], it.
      repeat split; [constructor|simpl; lia|].
      exists before, c, after. rewrite Nat.add_0_r, Hex. done.
    + rewrite Hres; simpl. exists [], (trace (test_iteration m s (deepcopy states)
                                               (deepcopy states) i w)).
      split; [done|]. right; left. exists e.
      repeat split; [constructor|simpl; lia|done].
Qed.

Lemma py_slice_last_length {A} (n : nat) (l : list A) :
  length (py_slice_last n l) = Nat.min n (length l).
Proof. unfold py_slice_last. rewrite length_drop. lia. Qed.

Lemma py_slice_last_suffix {A} (n : nat) (l : list A) :
  exists front, l = front ++ py_slice_last n l.
Proof.
  exists (take (length l - n) l). unfold py_slice_last. by rewrite take_drop.
Qed.

Lemma not_all_close_last (init : list iteration) (it : iteration)
    (before after : list (Tensor * Tensor * string)) (c : Tensor * Tensor * string) :
  compared it = before ++ c :: after -> ~ close c ->
  Exists (fun it' => ~ all_close it') (init ++ [it]).
Proof.
  intros Hcmp Hc. apply Exists_app. right. constructor.
  unfold all_close. rewrite Hcmp, Forall_app, Forall_cons. tauto.
Qed.

Lemma all_close_not_Exists (its : list iteration) :
  Forall all_close its -> ~ Exists (fun it => ~ all_close it) its.
Proof.
  intros Hall Hex. apply Exists_exists in Hex as (it & Hin & Hnot).
  apply Hnot. eapply Forall_forall in Hall; eauto.
Qed.

Lemma unfinished_iteration_nonempty (m : Model) (s : Session) (states : Tensor)
    (e : LibErr) (rest : list event) :
  unfinished_iteration m s states e rest -> rest <> [].
Proof. by intros [->|[(f & ->)|(f & ot & ->)]]. Qed.

Lemma zip3_length {A B C} (a : list A) (b : list B) (c : list C) :
  length (zip3 a b c) = Nat.min (Nat.min (length a) (length b)) (length c).
Proof.
  revert b c. induction a as [|x a IH]; intros [|y b] [|z c]; simpl; try lia.
  rewrite IH. lia.
Qed.

Lemma zip3_lookup {A B C} (a : list A) (b : list B) (c : list C) (j : nat)
    (t : A * B * C) :
  zip3 a b c !! j = Some t ->
  a !! j = Some t.1.1 /\ b !! j = Some t.1.2 /\ c !! j = Some t.2.
Proof.
  revert b c j. induction a as [|x a IH]; intros [|y b] [|z c] j; simpl; try done.
  destruct j as [|j]; simpl; [by intros [= <-]|apply IH].
Qed.

Lemma compared_length (it : iteration) :
  length (compared it) = Nat.min (Nat.min (length it.1.2) (length it.2)) 2.
Proof. unfold compared. by rewrite length_fmap, zip3_length. Qed.

Lemma compared_lookup (it : iteration) (j : nat) (c : Tensor * Tensor * string) :
  compared it !! j = Some c ->
  it.1.2 !! j = Some c.1.1
  /\ from_numpy <$> it.2 !! j = Some c.1.2
  /\ OUTPUT_NAMES !! j = Some c.2.
Proof.
  unfold compared. rewrite list_lookup_fmap.
  destruct (zip3 it.1.2 it.2 ["enhanced_audio_frame"; "out_states"] !! j)
    as [t|] eqn:Hj; simpl; [|done].
  intros [= <-]. apply zip3_lookup in Hj as (Ha & Hb & Hc). simpl.
  rewrite Ha, Hb. split_and!; [done|done|exact Hc].
Qed.

(** C1, as the code has it.  [test_onnx_model] runs at most 30 iterations,
    exactly 30 when it returns normally; each samples a frame with
    [torch.randn(480)] and runs it through the torch model and through the
    session.  An iteration compares the outputs pairwise, in order, as far as
    the torch outputs, the session outputs and the two names of
    [OUTPUT_NAMES] reach; an output beyond that is not compared.  The check
    on a pair is [torch.allclose(x, y, atol=0.01)] with the library's default
    relative tolerance: for two tensors of the same shape it returns, and it
    holds iff [|x - y| <= 0.01 + 0.00001 * |y|] at every entry.  The test
    returns normally iff 30 iterations completed and every compared pair
    passed.  The first compared pair that does not pass ends the test: with
    an [AssertionError] when [torch.allclose] answered, and the message then
    carries the output name, the iteration index and the last five flattened
    values (all of them when there are fewer) of both tensors of that pair;
    with the library's error when [torch.allclose] itself raised.  When all
    compared pairs have the same shape, the test raises [AssertionError] iff
    some compared pair is not within tolerance.  A failing library call ends
    the test with the library's error. *)
Theorem test_onnx_model_asserts_allclose (val : scalar -> Q)
    (same_shape : Tensor -> Tensor -> Prop) (torch_model : Model)
    (ort_session : Session) (states : Tensor) (w : World) :
  allclose_as_documented val same_shape ->
  let o := test_onnx_model torch_model ort_session states w in
  let tolerated (c : Tensor * Tensor * string) :=
    Forall2 (within_tolerance (1 # 100000) (1 # 100))
            (val <$> flat c.1.1) (val <$> flat c.1.2) in
  exists (its : list iteration) (rest : list event),
    trace o = concat (iteration_events torch_model ort_session states <$> its) ++ rest
    /\ length its <= 30
    /\ (rest = []
        \/ (length its < 30
            /\ exists e, res o = Raise (LibraryError e)
                         /\ unfinished_iteration torch_model ort_session states e rest))
    /\ (forall it, it ∈ its ->
          length (compared it) = Nat.min (Nat.min (length it.1.2) (length it.2)) 2
          /\ forall j c, compared it !! j = Some c ->
                it.1.2 !! j = Some c.1.1
                /\ from_numpy <$> it.2 !! j = Some c.1.2
                /\ OUTPUT_NAMES !! j = Some c.2)
    /\ (forall it c, it ∈ its -> c ∈ compared it -> same_shape c.1.1 c.1.2 ->
          (close c <-> tolerated c)
          /\ (~ tolerated c -> allclose (1 # 100) c.1.1 c.1.2 = inl false))
    /\ (res o = Ok tt <-> length its = 30 /\ rest = [] /\ Forall all_close its)
    /\ (res o = Ok tt ->
        forall it c, it ∈ its -> c ∈ compared it -> same_shape c.1.1 c.1.2 ->
          tolerated c)
    /\ (Exists (fun it => ~ all_close it) its <-> rest = [] /\ res o <> Ok tt)
    /\ (forall it, it ∈ its -> ~ all_close it ->
          exists init before c after,
            its = init ++ [it] /\ Forall all_close init
            /\ compared it = before ++ c :: after
            /\ Forall close before /\ ~ close c
            /\ res o = match allclose (1 # 100) c.1.1 c.1.2 with
                       | inl _ =>
                           Raise (AssertionError
                                    (AssertOut c.2 (length init)
                                       (py_slice_last 5 (flat c.1.1))
                                       (py_slice_last 5 (flat c.1.2))))
                       | inr e => Raise (LibraryError e)
                       end)
    /\ (forall msg, res o = Raise (AssertionError msg) ->
          exists init it before c after,
            its = init ++ [it] /\ Forall all_close init
            /\ compared it = before ++ c :: after
            /\ Forall close before
            /\ allclose (1 # 100) c.1.1 c.1.2 = inl false
            /\ (same_shape c.1.1 c.1.2 -> ~ tolerated c)
            /\ msg = AssertOut c.2 (length init)
                       (py_slice_last 5 (flat c.1.1)) (py_slice_last 5 (flat c.1.2))
            /\ length (py_slice_last 5 (flat c.1.1)) = Nat.min 5 (length (flat c.1.1))
            /\ length (py_slice_last 5 (flat c.1.2)) = Nat.min 5 (length (flat c.1.2))
            /\ (exists front, flat c.1.1 = front ++ py_slice_last 5 (flat c.1.1))
            /\ (exists front, flat c.1.2 = front ++ py_slice_last 5 (flat c.1.2)))
    /\ ((forall it c, it ∈ its -> c ∈ compared it -> same_shape c.1.1 c.1.2) ->
        ((exists msg, res o = Raise (AssertionError msg))
         <-> exists it c, it ∈ its /\ c ∈ compared it /\ ~ tolerated c)).
Proof.
  intros Hdoc. cbv zeta.
  assert (Hclose : forall c, same_shape c.1.1 c.1.2 ->
            (close c <-> Forall2 (within_tolerance (1 # 100000) (1 # 100))
                           (val <$> flat c.1.1) (val <$> flat c.1.2))
            /\ (~ Forall2 (within_tolerance (1 # 100000) (1 # 100))
                    (val <$> flat c.1.1) (val <$> flat c.1.2) ->
                allclose (1 # 100) c.1.1 c.1.2 = inl false)).
  { intros c Hshape.
    destruct (Hdoc (1 # 100)%Q c.1.1 c.1.2 Hshape) as (b & Hb & Hiff).
    unfold close. rewrite Hb. split.
    - rewrite <- Hiff. split; [by intros [= ->]|by intros ->].
    - intros Hn. destruct b; [|done]. exfalso. apply Hn. by apply Hiff. }
  assert (Hpassed : forall its : list iteration, Forall all_close its ->
            forall it c, it ∈ its -> c ∈ compared it -> close c).
  { intros its Hall it c Hit Hc. rewrite Forall_forall in Hall.
    specialize (Hall it Hit). unfold all_close in Hall.
    rewrite Forall_forall in Hall. by apply Hall. }
  unfold test_onnx_model, for_range; cbv beta zeta.
  destruct (test_loop_shape torch_model ort_session states 30 0 w)
    as (its & rest & Htr & Hcases).
  exists its, rest. split; [exact Htr|].
  split; [destruct Hcases as [(_ & Hl & _)|[(e & _ & _ & Hl & _)|(? & ? & _ & _ & _ & Hl & _)]]; lia|].
  split.
  { destruct Hcases as [(_ & _ & -> & _)|[(e & Hr & _ & Hl & Hun)|(? & ? & _ & -> & _)]];
      [by left| |by left].
    right. split; [lia|]. by exists e. }
  split.
  { intros it _. split; [apply compared_length|]. intros j c. apply compared_lookup. }
  split; [intros it c _ _; apply Hclose|].
  destruct Hcases as [(Hr & Hl & Hrest & Hall)
                     |[(e & Hr & Hall & Hl & Hun)
                      |(init & it & Hits & Hrest & Hinit & Hl & Hf)]].
  - rewrite Hr. split_and!.
    + done.
    + intros _ it c Hit Hc Hshape. apply Hclose; [done|]. by eapply Hpassed.
    + split; [intros Hex; by apply all_close_not_Exists in Hex|by intros [_ ?]].
    + intros it Hit Hn. exfalso. apply Hn. rewrite Forall_forall in Hall. by apply Hall.
    + intros msg Hmsg. discriminate Hmsg.
    + intros Hshapes. split; [intros [msg Hmsg]; discriminate Hmsg|].
      intros (it & c & Hit & Hc & Hn). exfalso. apply Hn.
      apply Hclose; [by eapply Hshapes|]. by eapply Hpassed.
  - rewrite Hr. split_and!.
    + split; [intros Hok; discriminate Hok|]. intros (Hl' & _). lia.
    + intros Hok. discriminate Hok.
    + split; [intros Hex; by apply all_close_not_Exists in Hex|].
      intros [Hrest _]. by apply unfinished_iteration_nonempty in Hun.
    + intros it Hit Hn. exfalso. apply Hn. rewrite Forall_forall in Hall. by apply Hall.
    + intros msg Hmsg. discriminate Hmsg.
    + intros Hshapes. split; [intros [msg Hmsg]; discriminate Hmsg|].
      intros (it & c & Hit & Hc & Hn). exfalso. apply Hn.
      apply Hclose; [by eapply Hshapes|]. by eapply Hpassed.
  - destruct Hf as (before & c & after & Hcmp & Hbef & Hc & Hr).
    rewrite Nat.add_0_l in Hr.
    assert (Hex : Exists (fun it' => ~ all_close it') its)
      by (subst its; by eapply not_all_close_last).
    assert (Hitin : it ∈ its).
    { subst its. apply elem_of_app. right. by apply list_elem_of_singleton. }
    assert (Hcin : c ∈ compared it).
    { rewrite Hcmp. apply elem_of_app. right. by left. }
    rewrite Hr. split_and!.
    + split; [intros Hok; by apply raised_on_not_ok in Hok|].
      intros (_ & _ & Hall). by apply all_close_not_Exists in Hall.
    + intros Hok. by apply raised_on_not_ok in Hok.
    + split; [intros _; split; [done|apply raised_on_not_ok]|done].
    + intros it0 Hit0 Hn. subst its. apply elem_of_app in Hit0 as [Hit0|Hit0].
      * exfalso. apply Hn. rewrite Forall_forall in Hinit. by apply Hinit.
      * apply list_elem_of_singleton in Hit0 as ->.
        by exists init, before, c, after.
    + intros msg Hmsg. unfold raised_on in Hmsg.
      destruct (allclose (1 # 100) c.1.1 c.1.2) as [[|]|e] eqn:Hb;
        [by destruct Hc|injection Hmsg as <-|discriminate Hmsg].
      exists init, it, before, c, after. split_and!; try done.
      * intros Hshape Htol. apply Hc. by apply Hclose.
      * apply py_slice_last_length.
      * apply py_slice_last_length.
      * apply py_slice_last_suffix.
      * apply py_slice_last_suffix.
    + intros Hshapes. split.
      * intros _. exists it, c. split_and!; [done|done|].
        intros Htol. apply Hc. apply Hclose; [by eapply Hshapes|done].
      * intros _.
        destruct (Hdoc (1 # 100)%Q c.1.1 c.1.2 (Hshapes it c Hitin Hcin))
          as (b & Hb & _).
        unfold raised_on. rewrite Hb. by eexists.
Qed.

(** *** State and feeds in the correctness test *)

Lemma torch_runs_app (a b : list event) :
  torch_runs (a ++ b) = torch_runs a ++ torch_runs b.
Proof. apply omap_app. Qed.

Lemma onnx_runs_app (a b : list event) :
  onnx_runs (a ++ b) = onnx_runs a ++ onnx_runs b.
Proof. apply omap_app. Qed.

Lemma torch_runs_iterations (m : Model) (s : Session) (states : Tensor)
    (its : list iteration) :
  torch_runs (concat (iteration_events m s states <$> its))
  = (fun it => (m, [it.1.1; deepcopy states], it.1.2)) <$> its.
Proof.
  induction its as [|it its IH]; [done|].
  rewrite !fmap_cons, concat_cons, torch_runs_app, IH. done.
Qed.

Lemma onnx_runs_iterations (m : Model) (s : Session) (states : Tensor)
    (its : list iteration) :
  onnx_runs (concat (iteration_events m s states <$> its))
  = (fun it => (s, OUTPUT_NAMES, {[ "input_frame" := to_numpy it.1.1 ]}, it.2)) <$> its.
Proof.
  induction its as [|it its IH]; [done|].
  rewrite !fmap_cons, concat_cons, onnx_runs_app, IH. done.
Qed.

(** In every run of [test_onnx_model], every completed call of the torch model
    received the deep copy of the initial [states] as its second argument, and
    every completed session run was asked for [OUTPUT_NAMES] with a feed that
    holds the sampled frame under ["input_frame"] and nothing else: no output
    of an earlier iteration is ever passed on. *)
Theorem test_onnx_model_feeds_initial_state (torch_model : Model)
    (ort_session : Session) (states : Tensor) (w : World) :
  let tr := trace (test_onnx_model torch_model ort_session states w) in
  Forall (fun r => r.1.1 = torch_model /\ exists frame, r.1.2 = [frame; deepcopy states])
         (torch_runs tr)
  /\ Forall (fun r => r.1.1.1 = ort_session /\ r.1.1.2 = OUTPUT_NAMES
                     /\ exists frame, r.1.2 = {[ "input_frame" := to_numpy frame ]})
           (onnx_runs tr).
Proof.
  unfold test_onnx_model, for_range; cbv beta zeta.
  destruct (test_loop_shape torch_model ort_session states 30 0 w)
    as (its & rest & -> & Hcases).
  rewrite torch_runs_app, onnx_runs_app, torch_runs_iterations, onnx_runs_iterations.
  rewrite !Forall_app, !Forall_fmap.
  assert (Hrest :
    Forall (fun r => r.1.1 = torch_model /\ exists frame, r.1.2 = [frame; deepcopy states])
      (torch_runs rest)
    /\ Forall (fun r => r.1.1.1 = ort_session /\ r.1.1.2 = OUTPUT_NAMES
                       /\ exists frame, r.1.2 = {[ "input_frame" := to_numpy frame ]})
         (onnx_runs rest)).
  { destruct Hcases as [(_ & _ & -> & _)
                       |[(e & _ & _ & _ & [->|[(f & ->)|(f & ot & ->)]])
                        |(_ & _ & _ & -> & _)]];
      simpl; repeat constructor; simpl; eauto. }
  destruct Hrest as [Ht Ho].
  split; (split; [|done]); apply Forall_forall; intros it _; simpl; eauto.
Qed.

(** *** The audio runner *)

Lemma infer_onnx_model_trace (p : Pipeline) (s : Session) (path : string) (w : World) :
  let o := infer_onnx_model p s path w in
  (exists e, res o = Raise (LibraryError e)
             /\ trace o = [Ev (AudioLoad path true) (inr e)])
  \/ (exists audio sr runs,
        Forall (is_backend_run s) runs
        /\ let mono := unsqueeze 0 (tensor_mean 0 audio) in
           let entered := [Ev (AudioLoad path true) (inl (audio, sr));
                           PipelineEnter p mono sr] ++ runs in
           (exists e, res o = Raise (LibraryError e) /\ trace o = entered)
           \/ (exists enhanced r,
                 trace o = entered
                           ++ [Ev (AudioSave (str_replace ".wav" "_onnx_infer.wav" path)
                                     enhanced sr "PCM_S" 16) r]
                 /\ res o = match r with
                            | inl _ => Ok tt
                            | inr e => Raise (LibraryError e)
                            end)).
Proof.
  unfold infer_onnx_model, bind, ext; simpl.
  destruct (lib _ (AudioLoad path true) w) as [[[audio sr]|e] w1]; simpl.
  2:{ left. by exists e. }
  right. unfold pipeline_call; simpl.
  set (prog := pipeline_forward p _ sr w1).
  destruct (run_pipeline_backend_only s prog) as (Hev & _ & Hlib).
  exists audio, sr, (trace (run_pipeline (onnx_backend s) prog)).
  split; [exact Hev|]. cbv zeta.
  destruct (res (run_pipeline (onnx_backend s) prog)) as [enhanced|e] eqn:Hres; simpl.
  - right.
    destruct (lib _ (AudioSave _ enhanced sr "PCM_S" 16) _) as [[[]|e] w2] eqn:Hsave; simpl.
    + by exists enhanced, (inl tt).
    + by exists enhanced, (inr e).
  - left. destruct (Hlib e eq_refl) as [e' ->]. by exists e'.
Qed.

Lemma first_tensor_feed_eq (features : list Tensor) :
  generate_onnx_features features = first_tensor_feed features.
Proof.
  destruct features as [|f rest]; simpl.
  - apply generate_onnx_features_nil.
  - apply generate_onnx_features_cons.
Qed.

Lemma onnx_backend_lib (s : Session) (features : list Tensor) (w : World) :
  onnx_backend s features w
  = let a := lib _ (SessionRun s OUTPUT_NAMES (first_tensor_feed features)) w in
    mkOutcome (match a.1 with
               | inl outs => Ok (from_numpy <$> outs)
               | inr e => Raise (LibraryError e)
               end) a.2
              [Ev (SessionRun s OUTPUT_NAMES (first_tensor_feed features)) a.1].
Proof.
  unfold onnx_backend, bind, ext, ret; simpl. rewrite first_tensor_feed_eq.
  destruct (lib _ (SessionRun s OUTPUT_NAMES (first_tensor_feed features)) w)
    as [[outs|e] w']; reflexivity.
Qed.

Lemma run_pipeline_served (s : Session) (prog : PipeProg) :
  let o := run_pipeline (onnx_backend s) prog in
  served s prog (trace o) (res o) (final o).
Proof.
  induction prog as [[t|e] w|features w k IH]; simpl.
  - constructor.
  - constructor.
  - rewrite onnx_backend_lib. cbv zeta.
    destruct (lib _ (SessionRun s OUTPUT_NAMES (first_tensor_feed features)) w)
      as [[outs|e] w'] eqn:Hrun; simpl.
    + eapply served_step; [exact Hrun|apply IH].
    + eapply served_run_failed. exact Hrun.
Qed.

Lemma served_unique (s : Session) (prog : PipeProg) (runs runs' : list event)
    (r r' : result Tensor) (wf wf' : World) :
  served s prog runs r wf -> served s prog runs' r' wf' ->
  runs = runs' /\ r = r' /\ wf = wf'.
Proof.
  intros Hs. revert runs' r' wf'.
  induction Hs as [t w|e w|features w k outs w' runs r wf Hrun _ IH
                  |features w k e w' Hrun]; intros runs' r' wf' Hs'.
  - by inversion Hs'.
  - by inversion Hs'.
  - inversion Hs' as [| |? ? ? outs2 w2 runs2 ? ? Hrun2 Hrest|? ? ? e2 w2 Hrun2];
      subst; rewrite Hrun in Hrun2; [|done].
    injection Hrun2 as <- <-. destruct (IH _ _ _ Hrest) as (-> & -> & ->). done.
  - inversion Hs' as [| |? ? ? outs2 w2 runs2 ? ? Hrun2 Hrest|? ? ? e2 w2 Hrun2];
      subst; rewrite Hrun in Hrun2; [done|].
    by injection Hrun2 as <- <-.
Qed.

Lemma audio_saves_served (s : Session) (prog : PipeProg) (runs : list event)
    (r : result Tensor) (wf : World) :
  served s prog runs r wf -> audio_saves runs = [].
Proof. induction 1; done. Qed.

(** [infer_onnx_model] loads the file channels-first and, when the load
    fails, stops there.  Otherwise it hands the pipeline the mono downmix
    (mean over dimension 0, unsqueezed at 0) with the file's sample rate,
    and the pipeline is served by the session as [served] describes: every
    step's features reach the session as the feed of their first tensor
    alone under ["input_frame"], asked for both output names, and the
    session's arrays are handed back as tensors in order.  The session runs
    are determined by the pipeline program.  When the pipeline or a session
    run fails, nothing is saved; when the pipeline returns a tensor, exactly
    that tensor is saved, 16-bit ["PCM_S"] at the file's sample rate, under
    the path with [".wav"] replaced, and the save's answer is the result. *)
Theorem infer_onnx_model_serves_pipeline (p : Pipeline) (s : Session)
    (path : string) (w : World) :
  let o := infer_onnx_model p s path w in
  let load := lib _ (AudioLoad path true) w in
  match load.1 with
  | inr e =>
      res o = Raise (LibraryError e) /\ final o = load.2
      /\ trace o = [Ev (AudioLoad path true) (inr e)]
  | inl (audio, sr) =>
      let mono := unsqueeze 0 (tensor_mean 0 audio) in
      let entered := [Ev (AudioLoad path true) (inl (audio, sr));
                      PipelineEnter p mono sr] in
      exists runs r w',
        served s (pipeline_forward p mono sr load.2) runs r w'
        /\ (forall runs2 r2 w2,
              served s (pipeline_forward p mono sr load.2) runs2 r2 w2 ->
              runs2 = runs /\ r2 = r /\ w2 = w')
        /\ match r with
           | Raise e =>
               res o = Raise e /\ final o = w' /\ trace o = entered ++ runs
               /\ audio_saves (trace o) = []
           | Ok enhanced =>
               let save := AudioSave (str_replace ".wav" "_onnx_infer.wav" path)
                             enhanced sr "PCM_S" 16 in
               let saved := lib _ save w' in
               trace o = entered ++ runs ++ [Ev save saved.1]
               /\ final o = saved.2
               /\ res o = match saved.1 with
                          | inl _ => Ok tt
                          | inr e => Raise (LibraryError e)
                          end
               /\ audio_saves (trace o)
                  = [(str_replace ".wav" "_onnx_infer.wav" path, enhanced, sr,
                      "PCM_S", 16)]
           end
  end.
Proof.
  unfold infer_onnx_model, bind, ext; simpl.
  destruct (lib _ (AudioLoad path true) w) as [[[audio sr]|e] w1]; simpl; [|done].
  unfold pipeline_call; simpl.
  set (prog := pipeline_forward p _ sr w1).
  pose proof (run_pipeline_served s prog) as Hs. cbv zeta in Hs.
  pose proof (audio_saves_served _ _ _ _ _ Hs) as Hsaves.
  exists (trace (run_pipeline (onnx_backend s) prog)),
         (res (run_pipeline (onnx_backend s) prog)),
         (final (run_pipeline (onnx_backend s) prog)).
  split; [exact Hs|].
  split; [intros runs2 r2 w2 Hs2; exact (served_unique _ _ _ _ _ _ _ _ Hs2 Hs)|].
  destruct (res (run_pipeline (onnx_backend s) prog)) as [enhanced|e]; simpl.
  - split_and!; try done.
    + destruct (lib _ (AudioSave _ enhanced sr "PCM_S" 16) _) as [[[]|e] w2];
        reflexivity.
    + unfold audio_saves in *. rewrite omap_app, Hsaves. done.
  - split_and!; try done.
Qed.

Lemma audio_saves_backend_runs (s : Session) (runs : list event) :
  Forall (is_backend_run s) runs -> audio_saves runs = [].
Proof.
  induction 1 as [|e runs He _ IH]; [done|].
  destruct e as [R c r| |]; simpl in He; try done.
  destruct c; simpl in He; done.
Qed.

Lemma infer_onnx_model_audio_saves (p : Pipeline) (s : Session) (path : string)
    (w : World) :
  Forall (fun c => c = (str_replace ".wav" "_onnx_infer.wav" path, c.1.1.1.2, c.1.1.2,
                        "PCM_S", 16))
         (audio_saves (trace (infer_onnx_model p s path w)))
  /\ length (audio_saves (trace (infer_onnx_model p s path w))) <= 1.
Proof.
  destruct (infer_onnx_model_trace p s path w)
    as [(e & _ & ->)|(audio & sr & runs & Hruns & [(e & _ & ->)|(enh & r & -> & _)])].
  - simpl. split; [constructor|lia].
  - unfold audio_saves. rewrite omap_app. simpl.
    fold (audio_saves runs). rewrite (audio_saves_backend_runs s runs Hruns).
    split; [constructor|simpl; lia].
  - unfold audio_saves. rewrite !omap_app. simpl.
    fold (audio_saves runs). rewrite (audio_saves_backend_runs s runs Hruns).
    simpl. split; [by repeat constructor|lia].
Qed.

(** Where [infer_onnx_model] saves.  For a path without the substring
    [".wav"] every save goes to the input path itself; for [stem ++ ".wav"]
    with no [".wav"] inside [stem] every save goes to
    [stem ++ "_onnx_infer.wav"]. *)
Theorem infer_onnx_model_output_path (p : Pipeline) (s : Session) (w : World) :
  (forall path,
      py_in ".wav" path = false ->
      Forall (fun c => c.1.1.1.1 = path)
             (audio_saves (trace (infer_onnx_model p s path w))))
  /\ (forall stem,
        py_in ".wav" stem = false ->
        Forall (fun c => c.1.1.1.1 = (stem ++ "_onnx_infer.wav")%string)
               (audio_saves (trace (infer_onnx_model p s (stem ++ ".wav")%string w)))).
Proof.
  split.
  - intros path Hin.
    destruct (infer_onnx_model_audio_saves p s path w) as [Hall _].
    eapply Forall_impl; [exact Hall|]. intros c ->. simpl.
    by apply str_replace_absent.
  - intros stem Hin.
    destruct (infer_onnx_model_audio_saves p s (stem ++ ".wav")%string w) as [Hall _].
    eapply Forall_impl; [exact Hall|]. intros c ->. simpl.
    by apply str_replace_wav_suffix.
Qed.

(** *** The graph file *)

Lemma Forall_audio (P : event -> Prop) (evs : list event) :
  Forall (fun e => only_calls audio_kinds e = true) evs ->
  (forall e, only_calls audio_kinds e = true -> P e) ->
  Forall P evs.
Proof. intros Hev HP. eapply Forall_impl; [exact Hev|exact HP]. Qed.

(** Every stage of [main] reads and writes the one file [args.output_path]:
    export, load for the full check, quantization preprocessing with symbolic
    shape inference (input and output the same path), dynamic quantization to
    [QUInt8] (input and output the same path), the conversion command line,
    and the session with its optimized-model file path. *)
Theorem main_rewrites_one_file (args : Args) (w : World) :
  Forall (on_output_path (output_path args)) (trace (main args w)).
Proof.
  run_main.
  all: simpl.
  all: repeat first
         [ apply Forall_nil_2
         | apply List.Forall_cons; [first [done | repeat split; reflexivity]|]
         | apply Forall_app; split
         | eapply Forall_audio; [eassumption|];
           let e := fresh in intros e; destruct e as [? [] ?| |]; by simpl ].
Qed.

(** *** Library failures end the run *)






















(** *** onnx_simplify *)

(** [onnx_simplify] loads the graph at [path] and simplifies it once.  It
    saves at most once, only the model that [onnxsim] returned with a true
    check flag and only after the full checker accepted that model, and only
    to [path].  When the check flag is false it raises the [AssertionError] of
    line 51 without running the checker or saving.  When it returns, it
    returns [path], and the save has been made. *)
Theorem onnx_simplify_saves_only_validated (path : string)
    (input_data : gmap string NdArray) (input_shapes : gmap string (list nat))
    (w : World) :
  let o := onnx_simplify path input_data input_shapes w in
  (model_saves (trace o) = []
   \/ exists m, model_saves (trace o) = [(m, path)]
                /\ simplify_results (trace o) = [inl (m, true)]
                /\ model_checks (trace o) = [(m, true)]
                /\ existsb (returned KCheckModel) (trace o) = true)
  /\ (forall m, simplify_results (trace o) = [inl (m, false)] ->
        res o = Raise (AssertionError
                         (AssertText "Simplified ONNX model could not be validated"))
        /\ model_checks (trace o) = [] /\ model_saves (trace o) = [])
  /\ (forall p, res o = Ok p ->
        p = path /\ exists m, model_saves (trace o) = [(m, path)])
  /\ length (simplify_results (trace o)) <= 1
  /\ Forall (fun e => match e with
                      | Ev (OnnxLoad p) _ => p = path
                      | _ => True
                      end) (trace o).
Proof.
  cbv zeta.
  pattern (res (onnx_simplify path input_data input_shapes w)),
          (trace (onnx_simplify path input_data input_shapes w)).
  apply wpt_run. unfold onnx_simplify.
  repeat first
    [ wp_step
    | lazymatch goal with
      | |- wpt (py_assert ?c _) _ _ _ => unfold py_assert; destruct c eqn:?
      end ].
  all: simpl.
  all: split_and!; try done; try lia; try (by left); try (by repeat constructor).
  all: try (intros; simplify_eq; simpl in *; congruence).
  - right. destruct p as [simp check]; simpl in *; subst check. by exists simp.
  - intros p' [= <-]. split; [done|]. destruct p as [simp check]. by exists simp.
  - right. destruct p as [simp check]; simpl in *; subst check. by exists simp.
Qed.

(** *** How a run of main ends *)

(** [main] returns normally only without [--simplify] and without [--test].
    It raises [NotImplementedError] only with [--simplify], [RuntimeError]
    only with [--ort] and without [--simplify], [IndexError] only with
    [--test] and without [--simplify], and it never raises an
    [AssertionError]: neither the closeness assertion of [test_onnx_model] nor
    the validation assertion of [onnx_simplify] can be reached from [main]. *)
Theorem main_exits (args : Args) (w : World) :
  let r := res (main args w) in
  (r = Ok tt -> simplify args = false /\ test args = false)
  /\ (forall msg, r = Raise (NotImplementedError msg) ->
        simplify args = true
        /\ msg = "Simplify not working for flatten states!")
  /\ (forall msg, r = Raise (RuntimeError msg) ->
        simplify args = false /\ ort args = true
        /\ msg = "ONNX to ORT conversion failed!")
  /\ (r = Raise IndexError -> simplify args = false /\ test args = true)
  /\ (forall msg, r <> Raise (AssertionError msg)).
Proof.
  run_main.
  all: lib_only.
  all: split_and!; try done; intros; simplify_eq; done.
Qed.

(** *** The order of the stages *)

(** The library calls of any run of [main] follow the fixed order pipeline,
    random frame, model call, scripting, export, load, full check,
    quantization preprocessing, quantization, conversion subprocess (with
    [--ort] only), session, check run: the calls made are an initial part of
    that list, or the whole list followed by the calls of the benchmark and
    of the audio stage.  A run that returns normally made all of them. *)
Theorem main_stage_order (args : Args) (w : World) :
  let o := main args w in
  (kinds (trace o) `prefix_of` stages args
   \/ stages args `prefix_of` kinds (trace o))
  /\ (res o = Ok tt -> stages args `prefix_of` kinds (trace o)).
Proof.
  run_main.
  all: unfold stages, kinds.
  all: repeat match goal with Hb : ort _ = _ |- _ => rewrite Hb; clear Hb end.
  all: simpl.
  all: split; [|first [ discriminate | intros _; eexists; reflexivity | idtac ]].
  all: try (intros Hok; lib_only; try discriminate Hok).
  all: first [ left; eexists; reflexivity | right; eexists; reflexivity | idtac ].
Qed.

(** *** The optional stages *)

Lemma filter_calls_backend_runs (k : kind) (s : Session) (runs : list event) :
  Forall (is_backend_run s) runs ->
  kind_eqb k KSessionRun = false ->
  List.filter (calls k) runs = [].
Proof.
  intros Hruns Hk. induction Hruns as [|e runs He _ IH]; [done|].
  destruct e as [R c r| |]; simpl in He; try done.
  destruct c; simpl in He; try done. simpl.
  replace (kind_eqb KSessionRun k) with false; [done|].
  symmetry. destruct k; try done.
Qed.

Lemma wpt_infer_shape (p : Pipeline) (s : Session) (path : string)
    (Q : result unit -> list event -> Prop) pre w :
  (forall e, Q (Raise (LibraryError e)) (pre ++ [Ev (AudioLoad path true) (inr e)])) ->
  (forall audio sr runs e,
      Forall (is_backend_run s) runs ->
      Q (Raise (LibraryError e))
        (pre ++ [Ev (AudioLoad path true) (inl (audio, sr));
                 PipelineEnter p (unsqueeze 0 (tensor_mean 0 audio)) sr] ++ runs)) ->
  (forall audio sr runs enhanced r,
      Forall (is_backend_run s) runs ->
      Q (match r with inl _ => Ok tt | inr e => Raise (LibraryError e) end)
        (pre ++ ([Ev (AudioLoad path true) (inl (audio, sr));
                  PipelineEnter p (unsqueeze 0 (tensor_mean 0 audio)) sr] ++ runs)
             ++ [Ev (AudioSave (str_replace ".wav" "_onnx_infer.wav" path)
                       enhanced sr "PCM_S" 16) r])) ->
  wpt (infer_onnx_model p s path) Q pre w.
Proof.
  intros Hload Hpipe Hsave. unfold wpt.
  destruct (infer_onnx_model_trace p s path w)
    as [(e & -> & ->)
       |(audio & sr & runs & Hruns & [(e & -> & ->)|(enh & r & -> & ->)])].
  - apply Hload.
  - by apply Hpipe.
  - rewrite app_assoc. rewrite <- (app_assoc pre). by apply Hsave.
Qed.

Ltac run_main_shape :=
  cbv zeta;
  lazymatch goal with
  | |- context [main ?a ?w] =>
      pattern (res (main a w)), (trace (main a w)); apply wpt_run
  end;
  unfold main, perform_benchmark;
  repeat first
    [ wp_step
    | lazymatch goal with
      | |- wpt (infer_onnx_model _ _ _) _ _ _ =>
          apply wpt_infer_shape;
          [ intros ? | intros ? ? ? ? ? | intros ? ? ? ? [?|?] ? ];
          cbv beta iota
      end ].

Ltac count_simpl :=
  unfold count_calls in *;
  simpl;
  rewrite <- ?app_assoc;
  repeat match goal with
    | Hr : Forall (is_backend_run ?s) ?runs
      |- context [List.filter (calls ?k) (?runs ++ ?l)] =>
        rewrite (List.filter_app (calls k) runs l),
          (filter_calls_backend_runs k s runs Hr) by reflexivity
    | Hr : Forall (is_backend_run ?s) ?runs
      |- context [List.filter (calls ?k) ?runs] =>
        rewrite (filter_calls_backend_runs k s runs Hr) by reflexivity
    end;
  simpl.

(** The benchmark and the audio stage run at most once each.  The timer is
    never called without [--performance]; no audio file is loaded or saved
    when [--inference-path] is absent or the empty string.  A run that
    returns normally has called the timer exactly when [--performance] was
    given, and has loaded and saved audio, once each, exactly when a
    non-empty inference path was given. *)
Theorem main_optional_stages (args : Args) (w : World) :
  let o := main args w in
  let n (b : bool) := if b then 1 else 0 in
  count_calls KBenchmarkTimer (trace o) <= n (performance args)
  /\ count_calls KAudioLoad (trace o) <= n (py_truthy (inference_path args))
  /\ count_calls KAudioSave (trace o) <= n (py_truthy (inference_path args))
  /\ (res o = Ok tt ->
      count_calls KBenchmarkTimer (trace o) = n (performance args)
      /\ count_calls KAudioLoad (trace o) = n (py_truthy (inference_path args))
      /\ count_calls KAudioSave (trace o) = n (py_truthy (inference_path args)))
  /\ py_truthy (Some "") = false /\ py_truthy None = false.
Proof.
  run_main_shape.
  all: count_simpl.
  all: repeat match goal with
         | Hb : performance _ = _ |- _ => rewrite Hb; clear Hb
         | Hb : py_truthy _ = _ |- _ => rewrite Hb; clear Hb
         end.
  all: split_and!; try done; try lia.
  all: try (destruct (performance args); simpl; lia).
  all: try (destruct (py_truthy (inference_path args)); simpl; lia).
Qed.

(** *** What the session is fed *)

Lemma generate_onnx_features_frame_only (features : list Tensor) :
  size (generate_onnx_features features) <= 1
  /\ forall k, is_Some (generate_onnx_features features !! k) -> k = "input_frame".
Proof.
  destruct features as [|f rest].
  - rewrite generate_onnx_features_nil, map_size_empty. split; [lia|].
    intros k [x Hx]. by rewrite lookup_empty in Hx.
  - rewrite generate_onnx_features_cons, map_size_singleton. split; [lia|].
    intros k [x Hx]. apply lookup_singleton_Some in Hx. by destruct Hx.
Qed.

Lemma backend_run_feeds_frame_only (s : Session) (e : event) :
  is_backend_run s e -> feeds_frame_only e.
Proof.
  destruct e as [R c r| |]; simpl; try done.
  destruct c; simpl; try done.
  intros (_ & -> & features & ->). split; [done|].
  apply generate_onnx_features_frame_only.
Qed.

Lemma iteration_events_feed_frame_only (m : Model) (s : Session) (states : Tensor)
    (its : list iteration) :
  Forall feeds_frame_only (concat (iteration_events m s states <$> its)).
Proof.
  induction its as [|it its IH]; [constructor|].
  rewrite fmap_cons, concat_cons. apply Forall_app. split; [|exact IH].
  repeat constructor; simpl; try done.
  intros k [x Hx]. apply lookup_singleton_Some in Hx. by destruct Hx.
Qed.

(** No function of the script ever hands the session anything but a frame:
    every session run made by [main], by [test_onnx_model] and by the audio
    runner, and the run timed by the benchmark in [main], asks for
    [OUTPUT_NAMES] with a feed of at most one entry, whose key can only be
    ["input_frame"].  A recurrent state is never part of a feed. *)
Theorem session_never_fed_state (w : World) :
  (forall args, Forall feeds_frame_only (trace (main args w)))
  /\ (forall m s states, Forall feeds_frame_only (trace (test_onnx_model m s states w)))
  /\ (forall p s path, Forall feeds_frame_only (trace (infer_onnx_model p s path w))).
Proof.
  assert (Hruns : forall s runs, Forall (is_backend_run s) runs ->
                                 Forall feeds_frame_only runs).
  { intros s runs Hr. eapply Forall_impl; [exact Hr|].
    apply backend_run_feeds_frame_only. }
  split_and!.
  - intros args. run_main_shape.
    all: simpl.
    all: rewrite <- ?app_assoc.
    all: repeat first
           [ apply Forall_nil_2
           | apply List.Forall_cons;
             [ first [ done
                     | split; [reflexivity|apply generate_onnx_features_frame_only] ]
             | ]
           | apply Forall_app; split
           | eapply Hruns; eassumption ].
  - intros m s states. unfold test_onnx_model, for_range; cbv beta zeta.
    destruct (test_loop_shape m s states 30 0 w) as (its & rest & -> & Hcases).
    apply Forall_app. split; [apply iteration_events_feed_frame_only|].
    destruct Hcases as [(_ & _ & -> & _)
                       |[(e & _ & _ & _ & [->|[(f & ->)|(f & ot & ->)]])
                        |(_ & _ & _ & -> & _)]];
      repeat constructor; simpl; try done.
    all: intros k [x Hx]; apply lookup_singleton_Some in Hx; by destruct Hx.
  - intros p s path.
    destruct (infer_onnx_model_trace p s path w)
      as [(e & _ & ->)
         |(audio & sr & runs & Hr & [(e & _ & ->)|(enh & r & -> & _)])].
    + by repeat constructor.
    + repeat (apply List.Forall_cons; [done|]). by eapply Hruns.
    + apply Forall_app. split; [|by repeat constructor].
      repeat (apply List.Forall_cons; [done|]). by eapply Hruns.
Qed.

(** *** What the correctness test compares *)

Lemma zip3_names {A B C} (a : list A) (b : list B) (c : list C) (t : A * B * C) :
  t ∈ zip3 a b c -> t.2 ∈ c.
Proof.
  revert b c. induction a as [|x a IH]; intros [|y b] [|z c]; simpl;
    try (intros Hin; by apply elem_of_nil in Hin).
  intros [->|Hin]%elem_of_cons; [left|right; by eapply IH].
Qed.

Lemma zip3_nil_m {A B C} (a : list A) (c : list C) : zip3 a (@nil B) c = [].
Proof. by destruct a. Qed.

Lemma compared_names (it : iteration) (c : Tensor * Tensor * string) :
  c ∈ compared it -> c.2 ∈ OUTPUT_NAMES.
Proof.
  unfold compared. intros (t & -> & Hin)%list_elem_of_fmap.
  apply zip3_names in Hin. exact Hin.
Qed.

(** An [AssertionError] of [test_onnx_model] names one of [OUTPUT_NAMES] and
    an iteration below 30, and shows at most five values of each tensor.
    Outputs are compared pairwise as far as both sides and the two names
    reach: when the session, or the torch model, returns no outputs in any of
    its completed calls, nothing is compared and the test cannot raise an
    [AssertionError]. *)
Theorem test_onnx_model_compares_common_outputs (torch_model : Model)
    (ort_session : Session) (states : Tensor) (w : World) :
  let o := test_onnx_model torch_model ort_session states w in
  (forall msg, res o = Raise (AssertionError msg) ->
     exists name i x_tail y_tail,
       msg = AssertOut name i x_tail y_tail
       /\ name ∈ OUTPUT_NAMES /\ i < 30
       /\ length x_tail <= 5 /\ length y_tail <= 5)
  /\ (Forall (fun r => r.2 = []) (onnx_runs (trace o)) ->
      forall msg, res o <> Raise (AssertionError msg))
  /\ (Forall (fun r => r.2 = []) (torch_runs (trace o)) ->
      forall msg, res o <> Raise (AssertionError msg)).
Proof.
  unfold test_onnx_model, for_range; cbv beta zeta.
  destruct (test_loop_shape torch_model ort_session states 30 0 w)
    as (its & rest & Htr & Hcases).
  rewrite Htr.
  destruct Hcases as [(Hr & _)
                     |[(e & Hr & _)
                      |(init & it & Hits & Hrest & Hclose & Hl & Hf)]].
  - rewrite Hr. split_and!; intros; discriminate.
  - rewrite Hr. split_and!; intros; discriminate.
  - destruct Hf as (before & c & after & Hcmp & Hbef & Hc & Hr).
    rewrite Hr. unfold raised_on.
    destruct (allclose (1 # 100) c.1.1 c.1.2) as [ok|e];
      [|split_and!; intros; discriminate].
    subst its rest. split_and!.
    + intros msg [= <-].
      exists c.2, (0 + length init), (py_slice_last 5 (flat c.1.1)),
        (py_slice_last 5 (flat c.1.2)).
      split_and!; try done.
      * apply (compared_names it). rewrite Hcmp. set_solver.
      * rewrite length_app in Hl. simpl in *. lia.
      * rewrite py_slice_last_length. lia.
      * rewrite py_slice_last_length. lia.
    + rewrite app_nil_r, onnx_runs_iterations, Forall_fmap, Forall_app, Forall_singleton.
      intros [_ Hempty] msg _. simpl in Hempty.
      unfold compared in Hcmp. rewrite Hempty, zip3_nil_m in Hcmp.
      by destruct before.
    + rewrite app_nil_r, torch_runs_iterations, Forall_fmap, Forall_app, Forall_singleton.
      intros [_ Hempty] msg _. simpl in Hempty.
      unfold compared in Hcmp. rewrite Hempty in Hcmp.
      by destruct before.
Qed.

(** *** When the audio runner overwrites its input *)

Lemma string_length_append (s t : string) :
  String.length (s ++ t)%string = String.length s + String.length t.
Proof.
  induction s as [|c s IH]; [done|]. rewrite append_cons_l. simpl. by rewrite IH.
Qed.

Lemma str_replace_skip_length (old new : string) :
  String.length old <= String.length new -> old <> EmptyString ->
  forall s k, String.length s <= String.length (str_replace_skip old new k s) + k.
Proof.
  intros Hlen Hold. induction s as [|c s IH]; intros k; simpl; [lia|].
  destruct k as [|k].
  - destruct (startswith old (String c s)).
    + rewrite string_length_append.
      specialize (IH (String.length old - 1)).
      destruct old as [|a old]; [done|]. simpl in *. lia.
    + simpl. specialize (IH 0). lia.
  - specialize (IH k). lia.
Qed.

Lemma str_replace_grows (old new s : string) :
  String.length old < String.length new -> old <> EmptyString ->
  py_in old s = true ->
  String.length s < String.length (str_replace old new s).
Proof.
  intros Hlen Hold. unfold str_replace.
  induction s as [|c s IH]; cbn [py_in str_replace_skip].
  - destruct old; [done|]. simpl. discriminate.
  - destruct (startswith old (String c s)) eqn:Hst.
    + intros _. rewrite string_length_append.
      pose proof (str_replace_skip_length old new ltac:(lia) Hold s
                    (String.length old - 1)) as Hge.
      destruct old as [|a old]; [done|]. simpl in *. lia.
    + simpl. intros Hin. specialize (IH Hin). simpl. lia.
Qed.

(** The audio runner saves onto the file it loaded exactly when the path
    has no occurrence of [".wav"]: every save it makes goes to the input
    path if and only if [".wav" in inference_path] is false. *)
Theorem infer_onnx_model_overwrites_iff (p : Pipeline) (s : Session)
    (path : string) (w : World) :
  Forall (fun c => c.1.1.1.1 = path <-> py_in ".wav" path = false)
         (audio_saves (trace (infer_onnx_model p s path w))).
Proof.
  destruct (infer_onnx_model_audio_saves p s path w) as [Hall _].
  eapply Forall_impl; [exact Hall|]. intros c ->. simpl. split.
  - intros Heq. destruct (py_in ".wav" path) eqn:Hin; [|done].
    exfalso. apply (str_replace_grows ".wav" "_onnx_infer.wav") in Hin;
      [|simpl; lia|done].
    rewrite Heq in Hin. lia.
  - apply str_replace_absent.
Qed.

(** *** What main prints *)

Lemma omap_app_backend {X} (f : event -> option X) (s : Session)
    (runs l : list event) :
  Forall (is_backend_run s) runs ->
  (forall e, is_backend_run s e -> f e = None) ->
  list_omap event X f (runs ++ l) = list_omap event X f l.
Proof.
  intros Hr Hf. induction Hr as [|e runs He _ IH]; [done|].
  simpl. by rewrite (Hf e He).
Qed.

Lemma omap_backend {X} (f : event -> option X) (s : Session) (runs : list event) :
  Forall (is_backend_run s) runs ->
  (forall e, is_backend_run s e -> f e = None) ->
  list_omap event X f runs = [].
Proof.
  intros Hr Hf. rewrite <- (app_nil_r runs). by rewrite (omap_app_backend f s).
Qed.

(** [main] announces a stage only after the fact: whenever it has printed
    that the model was exported, checked, preprocessed, quantized or
    converted, that the session ran, the median, or that the audio was
    enhanced, the library call of that stage has returned normally earlier in
    the run.  "Model converted to ORT format!" is printed only after the
    subprocess returned exit code 0.  "Tests passed!" and "Model simplified!"
    are never printed. *)
Theorem main_announces_after_the_fact (args : Args) (w : World) :
  let tr := trace (main args w) in
  Forall (fun k => existsb (returned k) tr = true) (announced tr)
  /\ (existsb (kind_eqb KSubprocessRun) (announced tr) = true ->
      subprocess_runs tr = [(convert_argv (output_path args), inl 0%Z)])
  /\ Forall (fun e => match e with
                      | Printed MsgTestsPassed | Printed (MsgSimplified _) => False
                      | _ => True
                      end) tr.
Proof.
  run_main_shape.
  all: repeat match goal with
         | Hb : bool_decide _ = false |- _ =>
             apply bool_decide_eq_false in Hb; apply dec_stable in Hb; subst
         end.
  all: unfold announced, subprocess_runs.
  all: simpl.
  all: rewrite <- ?app_assoc.
  all: repeat match goal with
         | Hr : Forall (is_backend_run ?s) ?runs
           |- context [list_omap _ _ ?f (?runs ++ ?l)] =>
             rewrite (omap_app_backend f s runs l Hr)
               by (let e := fresh in intros e; destruct e as [? [] ?| |]; done)
         | Hr : Forall (is_backend_run ?s) ?runs
           |- context [list_omap _ _ ?f ?runs] =>
             rewrite (omap_backend f s runs Hr)
               by (let e := fresh in intros e; destruct e as [? [] ?| |]; done)
         end.
  all: simpl.
  all: split_and!; try done.
  all: repeat first
         [ apply Forall_nil_2
         | apply List.Forall_cons;
             [ first [ done
                     | simpl; rewrite ?existsb_app; simpl; rewrite ?orb_true_r; done ]
             | ]
         | apply Forall_app; split
         | match goal with
           | Hr : Forall (is_backend_run ?s) ?runs |- Forall _ ?runs =>
               eapply Forall_impl; [exact Hr|];
               let e := fresh in intros e; destruct e as [? [] ?| |]; done
           end ].
Qed.
End Properties.

(** ** Runs on the executable stand-in *)

Lemma test_flag_indexes_out_of_range_witness :
  test Demo.test_args = true
  /\ res (main (H := Demo.handler Demo.good) Demo.test_args 0) = Raise IndexError.
Proof.
  split; [reflexivity|].
  exact (proj1 (proj2 (test_flag_indexes_out_of_range
                         (H := Demo.handler Demo.good) Demo.test_args 0 eq_refl))
           eq_refl).
Defined.

Lemma always_apply_all_stages_is_ignored_witness :
  always_apply_all_stages Demo.flagged_args <> always_apply_all_stages Demo.unflagged_args
  /\ main (H := Demo.handler Demo.good) Demo.flagged_args 0
     = main (H := Demo.handler Demo.good) Demo.unflagged_args 0.
Proof.
  split; [discriminate|].
  exact (always_apply_all_stages_is_ignored (H := Demo.handler Demo.good)
           Demo.flagged_args Demo.unflagged_args 0
           eq_refl eq_refl eq_refl eq_refl eq_refl eq_refl).
Defined.

(** C4 (the code does not do this).  A run of [test_onnx_model] on the
    stand-in, from states [[5]], with a model that returns its state
    argument plus one: all 30 calls of the torch model receive the initial
    [[5]] as their state argument, although every call returned [[6]], and
    all 30 session feeds hold the single key ["input_frame"], so the session
    never receives a state at all.  The test passes all the same. *)
Theorem test_onnx_model_state_not_carried :
  let o := test_onnx_model (H := Demo.handler Demo.good) tt tt [5%Q] 0 in
  res o = Ok tt
  /\ (fun r => r.1.2 !! 1) <$> torch_runs (trace o) = replicate 30 (Some [5%Q])
  /\ (fun r => r.2 !! 1) <$> torch_runs (trace o) = replicate 30 (Some [5 + 1]%Q)
  /\ (fun r => r.2 !! 1) <$> onnx_runs (trace o) = replicate 30 (Some [5 + 1]%Q)
  /\ (fun r => fst <$> map_to_list r.1.2) <$> onnx_runs (trace o)
     = replicate 30 ["input_frame"].
Proof. vm_compute. repeat split; reflexivity. Qed.

(** C9 (the code does not do this for every path).  [infer_onnx_model] on
    ["noisy.WAV"]: the path has no occurrence of [".wav"], [str.replace]
    returns it unchanged, and the enhanced audio is saved to ["noisy.WAV"],
    the file that was just loaded.  The same happens for ["noisy.flac"];
    ["noisy.wav"] is saved to ["noisy_onnx_infer.wav"], and a directory named
    with [".wav"] is rewritten as well. *)
Theorem infer_onnx_model_overwrites_non_wav_input :
  let o := infer_onnx_model (H := Demo.handler Demo.good) tt tt "noisy.WAV" 0 in
  res o = Ok tt
  /\ (fun c => (c.1.1.1.1, c.1.2, c.2)) <$> audio_saves (trace o)
     = [("noisy.WAV", "PCM_S", 16)]
  /\ str_replace ".wav" "_onnx_infer.wav" "noisy.flac" = "noisy.flac"
  /\ str_replace ".wav" "_onnx_infer.wav" "noisy.wav" = "noisy_onnx_infer.wav"
  /\ str_replace ".wav" "_onnx_infer.wav" "takes.wav/noisy.wav"
     = "takes_onnx_infer.wav/noisy_onnx_infer.wav".
Proof. vm_compute. repeat split; reflexivity. Qed.

(** A session that is off by 0.1 on every sample is caught in the first
    iteration, on the first output. *)
Lemma test_onnx_model_detects_drift :
  res (test_onnx_model (H := Demo.handler Demo.drifting) tt tt [5%Q] 0)
  = Raise (AssertionError
             (AssertOut (V := Demo.values) "enhanced_audio_frame" 0
                [475 # 2; 476 # 2; 477 # 2; 478 # 2; 479 # 2]%Q
                [4752 # 20; 4762 # 20; 4772 # 20; 4782 # 20; 4792 # 20]%Q)).
Proof. vm_compute. reflexivity. Qed.

(** A plain run reaches the session check and ends normally. *)
Lemma main_plain_run :
  let o := main (H := Demo.handler Demo.good) Demo.args0 0 in
  res o = Ok tt
  /\ omap (fun e => match e with Ev c _ => Some (kind_of c) | _ => None end) (trace o)
     = [KPipeline; KTorchRand; KModelForward; KJitScript; KOnnxExport; KOnnxLoad;
        KCheckModel; KQuantPreProcess; KQuantizeDynamic; KInferenceSession;
        KSessionRun].
Proof. vm_compute. split; reflexivity. Qed.

Lemma within_tolerance_iff (atol u v : Q) :
  Demo.within atol u v = true <-> within_tolerance (1 # 100000) atol u v.
Proof. unfold Demo.within, within_tolerance. apply Qle_bool_iff. Qed.

Lemma forallb_zip_within (atol : Q) (x y : list Q) :
  length x = length y ->
  (forallb (fun xy => Demo.within atol xy.1 xy.2) (zip x y) = true
   <-> Forall2 (within_tolerance (1 # 100000) atol) x y).
Proof.
  revert y. induction x as [|u x IH]; intros [|v y] Hlen; simpl in *; try done.
  rewrite andb_true_iff, within_tolerance_iff, Forall2_cons, IH by lia. done.
Qed.

(** The stand-in's [allclose] has the documented meaning on tensors of equal
    length. *)
Lemma close_enough_documented :
  allclose_as_documented (V := Demo.values) (fun x => x) Demo.same_length.
Proof.
  intros atol x y Hlen. unfold Demo.same_length in Hlen. simpl in *.
  rewrite !list_fmap_id.
  destruct x as [|u [|u' x]], y as [|v [|v' y]]; simpl in Hlen; try done.
  - exists true. split; [reflexivity|]. split; [constructor|done].
  - eexists. split; [reflexivity|]. simpl.
    rewrite andb_true_r, within_tolerance_iff, Forall2_cons.
    split; [intros Hw; split; [done|constructor]|by intros [Hw _]].
  - exists (forallb (fun xy => Demo.within atol xy.1 xy.2)
              (zip (u :: u' :: x) (v :: v' :: y))).
    split; [|apply forallb_zip_within; simpl; lia].
    change (Demo.close_enough atol (u :: u' :: x) (v :: v' :: y))
      with (if bool_decide (length (u :: u' :: x) = length (v :: v' :: y))
            then inl (forallb (fun xy => Demo.within atol xy.1 xy.2)
                        (zip (u :: u' :: x) (v :: v' :: y)))
            else @inr bool string "The size of tensor a must match the size of tensor b").
    by rewrite bool_decide_eq_true_2 by (simpl; lia).
Qed.

(** On the stand-in: the contract holds, the test passes, and its 30
    iterations are the whole trace. *)
Lemma test_onnx_model_asserts_allclose_witness :
  allclose_as_documented (V := Demo.values) (fun x => x) Demo.same_length
  /\ exists its : list (iteration (V := Demo.values)),
       trace (test_onnx_model (H := Demo.handler Demo.good) tt tt [5%Q] 0)
       = concat (iteration_events (V := Demo.values) tt tt [5%Q] <$> its)
       /\ length its = 30
       /\ forall it c, it ∈ its -> c ∈ compared it ->
            Demo.same_length c.1.1 c.1.2 ->
            Forall2 (within_tolerance (1 # 100000) (1 # 100)) c.1.1 c.1.2.
Proof.
  split; [exact close_enough_documented|].
  destruct (test_onnx_model_asserts_allclose (H := Demo.handler Demo.good)
              (fun x => x) Demo.same_length tt tt [5%Q] 0 close_enough_documented)
    as (its & rest & Htr & _ & _ & _ & _ & Hok & Htol & _).
  assert (Hres : res (test_onnx_model (H := Demo.handler Demo.good) tt tt [5%Q] 0)
                 = Ok tt) by (vm_compute; reflexivity).
  destruct (proj1 Hok Hres) as (Hlen & -> & _).
  exists its. rewrite app_nil_r in Htr. split_and!; [exact Htr|exact Hlen|].
  intros it c Hit Hc Hshape. specialize (Htol Hres it c Hit Hc Hshape).
  simpl in Htol. by rewrite !list_fmap_id in Htol.
Defined.

(** C1 as stated fails.  With a torch model that always returns
    [[100000]; [0]] and a session that always returns [[100000.4]; [0]],
    every iteration compares a pair that differs by 0.4, more than the
    absolute tolerance 0.01, and the test returns normally: the relative
    term [0.00001 * 100000.4] covers the difference.  With a torch model
    that returns three tensors and a session that returns two, the test
    returns normally and only two pairs are compared: the third output
    tensor is never asserted on. *)
Lemma test_onnx_model_passes_beyond_absolute_tolerance :
  let near := Demo.fixed_outputs [[100000]; [0]]%Q [[100000 + 4 / 10]; [0]]%Q in
  let o := test_onnx_model (H := near) tt tt [5%Q] 0 in
  let extra := Demo.fixed_outputs [[1]; [2]; [7]]%Q [[1]; [2]]%Q in
  let o' := test_onnx_model (H := extra) tt tt [5%Q] 0 in
  res o = Ok tt
  /\ (fun r => r.2) <$> torch_runs (trace o) = replicate 30 [[100000]; [0]]%Q
  /\ (fun r => r.2) <$> onnx_runs (trace o)
     = replicate 30 [[100000 + 4 / 10]; [0]]%Q
  /\ (1 # 100 < Qabs (100000 - (100000 + 4 / 10)))%Q
  /\ res o' = Ok tt
  /\ (fun r => length r.2) <$> torch_runs (trace o') = replicate 30 3
  /\ length (compared (V := Demo.values) ([], [[1]; [2]; [7]], [[1]; [2]])%Q) = 2.
Proof. vm_compute. repeat split; reflexivity. Qed.

(** Outputs whose shapes do not broadcast end the test with the error of
    [torch.allclose], not with an [AssertionError]. *)
Lemma test_onnx_model_shape_mismatch :
  res (test_onnx_model (H := Demo.fixed_outputs [[1; 2]]%Q [[1; 2; 3]]%Q)
         tt tt [5%Q] 0)
  = Raise (LibraryError (V := Demo.values)
             "The size of tensor a must match the size of tensor b").
Proof. vm_compute. reflexivity. Qed.
